(** * Portfolio backend: contact intake, visit tracking and analytics summary

    A shallow embedding of [api_backend/routers/stats.py] and
    [api_backend/routers/contact.py], followed by the properties of the
    specification that concern them.

    Conventions.
    - A Python [str] is represented by the bytes of its UTF-8 encoding, held
      in a Rocq [string]; [str.encode()] is then the list of these bytes.
    - A [datetime] is a number of microseconds since the epoch, in UTC.
    - The handlers run in a monad that threads the state of the world (the
      tables of the store, the calls made to the store and the log) and
      Python exceptions. *)

From Stdlib Require Import ZArith List String Ascii Lia Sorted Permutation.
From Stdlib.Strings Require Import Byte.
From stdpp Require Import base option list strings pretty gmap.

Import ListNotations.
Local Open Scope string_scope.

(** ** hashlib.sha256 *)

Module Sha256.
Local Open Scope Z_scope.

Definition mask32 : Z := 0xffffffff.
Definition add32 (a b : Z) : Z := Z.land (a + b) mask32.
Definition rotr (n x : Z) : Z :=
  Z.land (Z.lor (Z.shiftr x n) (Z.shiftl x (32 - n))) mask32.
Definition not32 (x : Z) : Z := Z.lxor x mask32.

Definition Ch (x y z : Z) : Z := Z.lxor (Z.land x y) (Z.land (not32 x) z).
Definition Maj (x y z : Z) : Z :=
  Z.lxor (Z.lxor (Z.land x y) (Z.land x z)) (Z.land y z).
Definition Sigma0 (x : Z) : Z := Z.lxor (Z.lxor (rotr 2 x) (rotr 13 x)) (rotr 22 x).
Definition Sigma1 (x : Z) : Z := Z.lxor (Z.lxor (rotr 6 x) (rotr 11 x)) (rotr 25 x).
Definition sigma0 (x : Z) : Z := Z.lxor (Z.lxor (rotr 7 x) (rotr 18 x)) (Z.shiftr x 3).
Definition sigma1 (x : Z) : Z := Z.lxor (Z.lxor (rotr 17 x) (rotr 19 x)) (Z.shiftr x 10).

(** The constants are derived as the standard defines them, from the first
    primes: the round constants are the first 32 bits of the fractional
    parts of their cube roots, the initial chaining value those of their
    square roots. *)
Definition is_prime (n : nat) : bool :=
  forallb (fun d => negb (n mod d =? 0)%nat) (seq 2 (n - 2)).

Definition primes (n : nat) : list Z :=
  map Z.of_nat (firstn n (List.filter is_prime (seq 2 310))).

(** The integer cube root of a number below [2 ^ 108], bit by bit. *)
Definition cube_root (n : Z) : Z :=
  fold_left (fun r b => let r' := r + 2 ^ Z.of_nat b in
                        if r' * r' * r' <=? n then r' else r)
            (rev (seq 0 36)) 0.

Definition K : list Z :=
  map (fun p => Z.land (cube_root (p * 2 ^ 96)) mask32) (primes 64).

(** The eight working variables, also the chaining value. *)
Record state := State { sa : Z; sb : Z; sc : Z; sd : Z; se : Z; sf : Z; sg : Z; sh : Z }.

Definition frac_sqrt (p : Z) : Z := Z.land (Z.sqrt (p * 2 ^ 64)) mask32.

Definition H0 : state :=
  State (frac_sqrt 2) (frac_sqrt 3) (frac_sqrt 5) (frac_sqrt 7)
        (frac_sqrt 11) (frac_sqrt 13) (frac_sqrt 17) (frac_sqrt 19).

(** Padding: a 1 bit, zeros up to 56 modulo 64, the bit length on 8 bytes. *)
Definition be_bytes (n : nat) (x : Z) : list Z :=
  map (fun i => Z.land (Z.shiftr x (8 * Z.of_nat i)) 0xff) (rev (seq 0 n)).

Definition pad (msg : list Z) : list Z :=
  let len := Z.of_nat (length msg) in
  msg ++ [0x80] ++ repeat 0 (Z.to_nat ((55 - len) mod 64)) ++ be_bytes 8 (8 * len).

Definition be_word (bs : list Z) : Z :=
  fold_left (fun acc b => Z.lor (Z.shiftl acc 8) b) bs 0.

Fixpoint words (n : nat) (bs : list Z) : list Z :=
  match n with
  | O => []
  | S n' => be_word (firstn 4 bs) :: words n' (skipn 4 bs)
  end.

Fixpoint blocks (fuel : nat) (bs : list Z) : list (list Z) :=
  match fuel, bs with
  | O, _ | _, [] => []
  | S fuel', _ => words 16 (firstn 64 bs) :: blocks fuel' (skipn 64 bs)
  end.

(** Message schedule; [rw] holds the words computed so far, newest first. *)
Fixpoint schedule (n : nat) (rw : list Z) : list Z :=
  match n with
  | O => rev rw
  | S n' =>
      let w := add32 (add32 (sigma1 (nth 1 rw 0)) (nth 6 rw 0))
                     (add32 (sigma0 (nth 14 rw 0)) (nth 15 rw 0)) in
      schedule n' (w :: rw)
  end.

Definition round (s : state) (kw : Z * Z) : state :=
  let t1 := add32 (add32 (add32 (sh s) (Sigma1 (se s))) (Ch (se s) (sf s) (sg s)))
                  (add32 (fst kw) (snd kw)) in
  let t2 := add32 (Sigma0 (sa s)) (Maj (sa s) (sb s) (sc s)) in
  State (add32 t1 t2) (sa s) (sb s) (sc s) (add32 (sd s) t1) (se s) (sf s) (sg s).

Definition compress (h : state) (block : list Z) : state :=
  let w := schedule 48 (rev block) in
  let s := fold_left round (combine K w) h in
  State (add32 (sa h) (sa s)) (add32 (sb h) (sb s)) (add32 (sc h) (sc s))
        (add32 (sd h) (sd s)) (add32 (se h) (se s)) (add32 (sf h) (sf s))
        (add32 (sg h) (sg s)) (add32 (sh h) (sh s)).

Definition sha256 (msg : list Z) : state :=
  let p := pad msg in
  fold_left compress (blocks (length p) p) H0.

(** [hexdigest]: eight lower-case hexadecimal digits per word. *)
Definition hex_digit (n : Z) : ascii :=
  nth (Z.to_nat (Z.land n 0xf))
      (list_ascii_of_string "0123456789abcdef") "0"%char.

Definition hex_word (w : Z) (rest : string) : string :=
  String (hex_digit (Z.shiftr w 28)) (String (hex_digit (Z.shiftr w 24))
  (String (hex_digit (Z.shiftr w 20)) (String (hex_digit (Z.shiftr w 16))
  (String (hex_digit (Z.shiftr w 12)) (String (hex_digit (Z.shiftr w 8))
  (String (hex_digit (Z.shiftr w 4)) (String (hex_digit w) rest))))))).

Definition hexdigest (s : state) : string :=
  hex_word (sa s) (hex_word (sb s) (hex_word (sc s) (hex_word (sd s)
  (hex_word (se s) (hex_word (sf s) (hex_word (sg s) (hex_word (sh s) ""))))))).

End Sha256.

(** ** Python strings *)

(** [s.encode()]: the UTF-8 bytes of [s]. *)
Definition encode (s : string) : list Z :=
  map (fun b => Z.of_N (Byte.to_N b)) (list_byte_of_string s).

(** A continuation byte of a UTF-8 sequence, [10xxxxxx]. *)
Definition is_continuation (c : ascii) : bool :=
  let n := nat_of_ascii c in (128 <=? n)%nat && (n <? 192)%nat.

(** [s[:n]]: the first [n] code points of [s]. *)
Fixpoint str_slice_to (n : nat) (s : string) : string :=
  match s with
  | EmptyString => ""
  | String c s' =>
      if is_continuation c then String c (str_slice_to n s')
      else match n with
           | O => ""
           | S n' => String c (str_slice_to n' s')
           end
  end.

(** [len(s)]: the number of code points of [s]. *)
Fixpoint py_len (s : string) : Z :=
  match s with
  | EmptyString => 0
  | String c s' => ((if is_continuation c then 0 else 1) + py_len s')%Z
  end.

(** [s.split(",")[0]]: what precedes the first comma. *)
Fixpoint split_comma_first (s : string) : string :=
  match s with
  | EmptyString => ""
  | String c s' => if Ascii.eqb c ","%char then "" else String c (split_comma_first s')
  end.

Definition bytes_str (l : list nat) : string :=
  string_of_list_ascii (map ascii_of_nat l).

Fixpoint str_rev_onto (s acc : string) : string :=
  match s with
  | EmptyString => acc
  | String c s' => str_rev_onto s' (String c acc)
  end.
Definition str_rev (s : string) : string := str_rev_onto s "".

(** The characters [str.strip()] removes (those with [str.isspace()]),
    as UTF-8 sequences: U+0009..000D, U+001C..0020, U+0085, U+00A0, U+1680,
    U+2000..200A, U+2028, U+2029, U+202F, U+205F, U+3000. *)
Definition whitespace : list string :=
  map bytes_str
    ([ [9]; [10]; [11]; [12]; [13]; [28]; [29]; [30]; [31]; [32];
       [194; 133]; [194; 160]; [225; 154; 128] ]
     ++ map (fun b => [226; 128; b]) (seq 128 11)
     ++ [ [226; 128; 168]; [226; 128; 169]; [226; 128; 175];
          [226; 129; 159]; [227; 128; 128] ]).

Fixpoint drop_prefix (p s : string) : option string :=
  match p, s with
  | EmptyString, _ => Some s
  | String a p', String b s' => if Ascii.eqb a b then drop_prefix p' s' else None
  | String _ _, EmptyString => None
  end.

Fixpoint drop_any (ps : list string) (s : string) : option string :=
  match ps with
  | [] => None
  | p :: ps' => match drop_prefix p s with
                | Some s' => Some s'
                | None => drop_any ps' s
                end
  end.

Fixpoint lstrip_with (ps : list string) (fuel : nat) (s : string) : string :=
  match fuel with
  | O => s
  | S fuel' => match drop_any ps s with
               | Some s' => lstrip_with ps fuel' s'
               | None => s
               end
  end.

Definition lstrip (s : string) : string :=
  lstrip_with whitespace (String.length s) s.
Definition rstrip (s : string) : string :=
  str_rev (lstrip_with (map str_rev whitespace) (String.length s) (str_rev s)).
Definition strip (s : string) : string := rstrip (lstrip s).

(** Truth value of a [str]: non-empty. *)
Definition str_truthy (s : string) : bool :=
  match s with EmptyString => false | String _ _ => true end.

(** [a or b] on optional strings. *)
Definition opt_or (a b : option string) : option string :=
  match a with
  | Some s => if str_truthy s then a else b
  | None => b
  end.

(** ** Values, rows and the store *)

(** A column value of the [visits] and [contact_messages] tables as Python
    sees it: [None], an [int], a [str], or a timestamp. *)
Inductive Value :=
| VNone
| VInt (z : Z)
| VStr (s : string)
| VTime (t : Z).

#[global] Instance Value_eq_dec : EqDecision Value.
Proof. solve_decision. Defined.

Definition truthy (v : Value) : bool :=
  match v with
  | VNone => false
  | VInt z => negb (z =? 0)%Z
  | VStr s => str_truthy s
  | VTime _ => true
  end.

Definition of_opt_str (o : option string) : Value :=
  match o with Some s => VStr s | None => VNone end.
Definition of_opt_int (o : option Z) : Value :=
  match o with Some z => VInt z | None => VNone end.

(** A row is a Python [dict] from column names to values. *)
Abbreviation Row := (gmap string Value).

(** The free-form JSON carried by an event. *)
#[warnings="-register-all"]
Inductive Json :=
| JNull
| JBool (b : bool)
| JInt (z : Z)
| JFloat (literal : string)
| JStr (s : string)
| JList (items : list Json)
| JDict (items : list (string * Json)).

(** The [dict] that [track_event] hands to the store. *)
Module EventRow.
Record t := Make {
  session_id : string;
  event_type : string;
  event_data : Json;
  page_url : string;
  created_at : Z
}.
End EventRow.

(** Exceptions. [HTTPException] is fastapi's, [RequestValidationError] is
    raised by the framework on a rejected parameter, [PyError] is any other
    exception with the name of its type and its [str()]. *)
Inductive PyExc :=
| HTTPException (status_code : Z) (detail : string)
| RequestValidationError (detail : string)
| PyError (type_name : string) (text : string).

Definition exc_str (e : PyExc) : string :=
  match e with
  | HTTPException c d => pretty c ++ ": " ++ d
  | RequestValidationError d => d
  | PyError _ t => t
  end.

Definition exc_type_name (e : PyExc) : string :=
  match e with
  | HTTPException _ _ => "HTTPException"
  | RequestValidationError _ => "RequestValidationError"
  | PyError n _ => n
  end.

Inductive Result (A : Type) :=
| Ok (a : A)
| Raise (e : PyExc).
Arguments Ok {A} a.
Arguments Raise {A} e.

(** The calls the handlers make on the store client:
    [table(t).insert(data).execute()] and
    [table(t).select(columns, count=...).gte(column, bound).execute()]. *)
Inductive Call :=
| CInsert (table : string) (data : Row)
| CInsertEvent (table : string) (data : EventRow.t)
| CSelect (table : string) (columns : string) (count_exact : bool)
          (gte_column : string) (bound : Z).

(** What the remote store does is not in the program: a client decides,
    from the calls made so far, whether a call raises, and which rows an
    accepted insert returns. *)
Record Client := {
  fault : list Call -> Call -> option PyExc;
  returning : list Call -> string -> Row -> list Row
}.

Inductive LogValue :=
| LNone
| LBool (b : bool)
| LInt (z : Z)
| LStr (s : string).

Record LogRecord := {
  level : string;
  event : string;
  fields : list (string * LogValue)
}.

Record World := {
  visits : list Row;
  events : list EventRow.t;
  contact_messages : list Row;
  calls : list Call;
  logs : list LogRecord
}.

(** The handler monad: state of the world and exceptions. *)
Definition M (A : Type) : Type := World -> Result A * World.

Definition ret {A} (a : A) : M A := fun w => (Ok a, w).
Definition raise {A} (e : PyExc) : M A := fun w => (Raise e, w).
Definition bind {A B} (m : M A) (k : A -> M B) : M B :=
  fun w => match m w with
           | (Ok a, w') => k a w'
           | (Raise e, w') => (Raise e, w')
           end.
(** [try: body except Exception as e: handler e] *)
Definition try_except {A} (body : M A) (handler : PyExc -> M A) : M A :=
  fun w => match body w with
           | (Ok a, w') => (Ok a, w')
           | (Raise e, w') => handler e w'
           end.

Notation "x <- m ;; k" := (bind m (fun x => k))
  (at level 100, m at next level, right associativity).
Notation "m ;;; k" := (bind m (fun _ => k))
  (at level 100, right associativity).

Definition log (lvl ev : string) (kw : list (string * LogValue)) : M unit :=
  fun w => (Ok tt,
            {| visits := visits w; events := events w;
               contact_messages := contact_messages w; calls := calls w;
               logs := logs w ++ [ {| level := lvl; event := ev; fields := kw |} ] |}).

Definition record_call (c : Call) (w : World) : World :=
  {| visits := visits w; events := events w;
     contact_messages := contact_messages w; calls := calls w ++ [c];
     logs := logs w |}.

Definition store_row (table : string) (r : Row) (w : World) : World :=
  {| visits := if String.eqb table "visits" then visits w ++ [r] else visits w;
     events := events w;
     contact_messages :=
       if String.eqb table "contact_messages" then contact_messages w ++ [r]
       else contact_messages w;
     calls := calls w; logs := logs w |}.

Definition store_event (table : string) (r : EventRow.t) (w : World) : World :=
  {| visits := visits w;
     events := if String.eqb table "events" then events w ++ [r] else events w;
     contact_messages := contact_messages w;
     calls := calls w; logs := logs w |}.

Definition table_rows (table : string) (w : World) : list Row :=
  if String.eqb table "visits" then visits w
  else if String.eqb table "contact_messages" then contact_messages w
  else [].

(** [supabase_cli.table(t).insert(data).execute()]; the result is
    [result.data]. *)
Definition insert_execute (cli : Client) (table : string) (data : Row) : M (list Row) :=
  fun w =>
    let c := CInsert table data in
    match fault cli (calls w) c with
    | Some e => (Raise e, record_call c w)
    | None => (Ok (returning cli (calls w) table data),
               record_call c (store_row table data w))
    end.

Definition insert_event_execute (cli : Client) (table : string) (data : EventRow.t)
  : M unit :=
  fun w =>
    let c := CInsertEvent table data in
    match fault cli (calls w) c with
    | Some e => (Raise e, record_call c w)
    | None => (Ok tt, record_call c (store_event table data w))
    end.

Record SelectResult := {
  data : list Row;
  count : option Z
}.

(** The filter [.gte(column, bound)]: the column holds a timestamp that is
    not before the bound. *)
Definition row_gte (column : string) (bound : Z) (r : Row) : bool :=
  match r !! column with
  | Some (VTime t) => (bound <=? t)%Z
  | _ => false
  end.

(** [select("*")] gives whole rows, [select(c)] rows with the one column [c]
    ([None] where the stored row has no value). *)
Definition project (columns : string) (r : Row) : Row :=
  if String.eqb columns "*" then r
  else {[ columns := default VNone (r !! columns) ]}.

Definition select_gte_execute (cli : Client) (table columns : string)
    (count_exact : bool) (gte_column : string) (bound : Z) : M SelectResult :=
  fun w =>
    let c := CSelect table columns count_exact gte_column bound in
    match fault cli (calls w) c with
    | Some e => (Raise e, record_call c w)
    | None =>
        let rows := List.filter (row_gte gte_column bound) (table_rows table w) in
        (Ok {| data := map (project columns) rows;
               count := if count_exact then Some (Z.of_nat (length rows)) else None |},
         record_call c w)
    end.

(** ** Requests and responses *)

(** A request: its headers (names in lower case, as the framework stores
    them) and the host of the peer when the connection has one. *)
Record Request := {
  headers : list (string * string);
  client : option string
}.

(** [request.headers.get(name)]: the first header of that name. *)
Fixpoint headers_get (hs : list (string * string)) (name : string) : option string :=
  match hs with
  | [] => None
  | (k, v) :: hs' => if String.eqb k name then Some v else headers_get hs' name
  end.

(** What the framework answers: the returned body with status 200, or the
    status and detail of an [HTTPException]; a rejected parameter is a 422
    and any other exception a 500. *)
Inductive Response (A : Type) :=
| Json200 (body : A)
| ErrorResponse (status_code : Z) (detail : string).
Arguments Json200 {A} body.
Arguments ErrorResponse {A} status_code detail.

Definition respond {A} (r : Result A) : Response A :=
  match r with
  | Ok a => Json200 a
  | Raise (HTTPException c d) => ErrorResponse c d
  | Raise (RequestValidationError d) => ErrorResponse 422 d
  | Raise (PyError _ _) => ErrorResponse 500 "Internal Server Error"
  end.

Definition status {A} (r : Response A) : Z :=
  match r with
  | Json200 _ => 200
  | ErrorResponse c _ => c
  end.

(** Run a handler as the framework does. *)
Definition serve {A} (m : M A) (w : World) : Response A * World :=
  let (r, w') := m w in (respond r, w').

(** ** The user-agent parser *)

(** The result of [user_agents.parse]: the attributes the program reads. *)
Module UA.
Record family_version := {
  family : string;
  version_string : string
}.
Record t := {
  browser : family_version;
  os : family_version;
  is_mobile : bool;
  is_tablet : bool;
  is_bot : bool
}.
End UA.

(** ** Python dictionaries of counters, sets and sorting *)

(** A [dict] from values to counters, in insertion order. *)
Abbreviation Counts := (list (Value * Z)).

(** [d.get(k, default)] *)
Fixpoint dict_get (d : Counts) (k : Value) (default : Z) : Z :=
  match d with
  | [] => default
  | (k', c) :: d' => if decide (k' = k) then c else dict_get d' k default
  end.

(** [d[k] = c]: an existing key keeps its place, a new one goes last. *)
Fixpoint dict_set (d : Counts) (k : Value) (c : Z) : Counts :=
  match d with
  | [] => [(k, c)]
  | (k', c') :: d' =>
      if decide (k' = k) then (k', c) :: d' else (k', c') :: dict_set d' k c
  end.

(** [for k in keys: d[k] = d.get(k, 0) + 1], from the dictionary [d]. *)
Definition count_into (d : Counts) (keys : list Value) : Counts :=
  fold_left (fun d k => dict_set d k (dict_get d k 0 + 1)%Z) keys d.

(** [len(set(xs))] *)
Definition len_set (xs : list Value) : Z := Z.of_nat (length (remove_dups xs)).

(** [sorted(items, key=lambda x: x[1], reverse=True)]. Python's sort is
    stable, also with [reverse=True]: items with equal keys keep their
    order. An item goes after the items of a greater count and before the
    others, which all followed it in the input. *)
Fixpoint insert_by_count (x : Value * Z) (l : Counts) : Counts :=
  match l with
  | [] => [x]
  | y :: l' => if (snd x <? snd y)%Z then y :: insert_by_count x l' else x :: l
  end.

Definition sorted_by_count_reverse (items : Counts) : Counts :=
  foldr insert_by_count [] items.

(** ** routers/stats.py *)

Module Stats.

Module VisitData.
Record t := {
  page_url : string;
  page_title : option string;
  referrer : option string;
  session_id : string;
  screen_width : option Z;
  screen_height : option Z;
  time_on_page : option Z;
  scroll_depth : option Z
}.
End VisitData.

Module EventData.
Record t := {
  session_id : string;
  event_type : string;
  event_data : Json;
  page_url : string
}.
End EventData.

Module DeviceInfo.
Record t := {
  browser : string;
  browser_version : string;
  os : string;
  os_version : string;
  device_type : string;
  is_bot : bool
}.
End DeviceInfo.

Module Location.
Record t := {
  country : option string;
  city : option string
}.
End Location.

Definition hash_ip (ip : string) : string :=
  str_slice_to 16 (Sha256.hexdigest (Sha256.sha256 (encode ip))).

Definition extract_device_info (parse_user_agent : string -> UA.t)
    (user_agent_string : string) : DeviceInfo.t :=
  let ua := parse_user_agent user_agent_string in
  {| DeviceInfo.browser := UA.family (UA.browser ua);
     DeviceInfo.browser_version := UA.version_string (UA.browser ua);
     DeviceInfo.os := UA.family (UA.os ua);
     DeviceInfo.os_version := UA.version_string (UA.os ua);
     DeviceInfo.device_type :=
       if UA.is_mobile ua then "mobile"
       else if UA.is_tablet ua then "tablet"
       else if UA.is_bot ua then "bot"
       else "desktop";
     DeviceInfo.is_bot := UA.is_bot ua |}.

Definition get_client_ip (request : Request) : string :=
  let from_connection :=
    match client request with Some host => host | None => "unknown" end in
  let from_real_ip :=
    match headers_get (headers request) "x-real-ip" with
    | Some real_ip => if str_truthy real_ip then real_ip else from_connection
    | None => from_connection
    end in
  match headers_get (headers request) "x-forwarded-for" with
  | Some forwarded_for =>
      if str_truthy forwarded_for then strip (split_comma_first forwarded_for)
      else from_real_ip
  | None => from_real_ip
  end.

Definition get_location_from_headers (request : Request) : Location.t :=
  let get := headers_get (headers request) in
  {| Location.country :=
       opt_or (get "cloudfront-viewer-country")
         (opt_or (get "x-country-code") (opt_or (get "cf-ipcountry") None));
     Location.city :=
       opt_or (get "cloudfront-viewer-city") (opt_or (get "x-city") None) |}.

Record TrackResponse := {
  message : string;
  tracked : bool;
  error : option string
}.

(** The [data] dictionary of [track_visit]. *)
Definition visit_row (visit : VisitData.t) (client_ip user_agent : string)
    (device_info : DeviceInfo.t) (location : Location.t) (now : Z) : Row :=
  list_to_map
    [ ("session_id", VStr (VisitData.session_id visit));
      ("ip_hash", VStr (hash_ip client_ip));
      ("country", of_opt_str (Location.country location));
      ("city", of_opt_str (Location.city location));
      ("user_agent", VStr user_agent);
      ("device_type", VStr (DeviceInfo.device_type device_info));
      ("browser", VStr (DeviceInfo.browser device_info));
      ("browser_version", VStr (DeviceInfo.browser_version device_info));
      ("os", VStr (DeviceInfo.os device_info));
      ("os_version", VStr (DeviceInfo.os_version device_info));
      ("screen_width", of_opt_int (VisitData.screen_width visit));
      ("screen_height", of_opt_int (VisitData.screen_height visit));
      ("page_url", VStr (VisitData.page_url visit));
      ("page_title", of_opt_str (VisitData.page_title visit));
      ("referrer", of_opt_str (VisitData.referrer visit));
      ("time_on_page", of_opt_int (VisitData.time_on_page visit));
      ("scroll_depth", of_opt_int (VisitData.scroll_depth visit));
      ("created_at", VTime now) ].

Definition track_visit (supabase_cli : option Client)
    (parse_user_agent : string -> UA.t) (now : Z)
    (visit : VisitData.t) (request : Request) : M TrackResponse :=
  match supabase_cli with
  | None =>
      log "error" "visit_tracking_failed" [("reason", LStr "supabase_not_configured")] ;;;
      raise (HTTPException 503 "Analytics service is not available")
  | Some cli =>
      try_except
        (let client_ip := get_client_ip request in
         let user_agent := default "unknown" (headers_get (headers request) "user-agent") in
         let device_info := extract_device_info parse_user_agent user_agent in
         let location := get_location_from_headers request in
         if DeviceInfo.is_bot device_info then
           log "info" "bot_visit_skipped"
             [("bot_type", LStr (DeviceInfo.browser device_info));
              ("page", LStr (VisitData.page_url visit))] ;;;
           ret {| message := "Bot visit logged"; tracked := false; error := None |}
         else
           let data := visit_row visit client_ip user_agent device_info location now in
           result <- insert_execute cli "visits" data ;;
           log "info" "visit_tracked"
             [("page", LStr (VisitData.page_url visit));
              ("device", LStr (DeviceInfo.device_type device_info));
              ("browser", LStr (DeviceInfo.browser device_info));
              ("country", match Location.country location with
                          | Some c => LStr c | None => LNone end);
              ("session", LStr (str_slice_to 8 (VisitData.session_id visit)))] ;;;
           ret {| message := "Visit tracked successfully"; tracked := true;
                  error := None |})
        (fun e =>
           log "error" "visit_tracking_error"
             [("error", LStr (exc_str e));
              ("error_type", LStr (exc_type_name e));
              ("page", LStr (VisitData.page_url visit))] ;;;
           ret {| message := "Visit tracking failed"; tracked := false;
                  error := Some (exc_str e) |})
  end.

Definition event_row (event : EventData.t) (now : Z) : EventRow.t :=
  {| EventRow.session_id := EventData.session_id event;
     EventRow.event_type := EventData.event_type event;
     EventRow.event_data := EventData.event_data event;
     EventRow.page_url := EventData.page_url event;
     EventRow.created_at := now |}.

Definition track_event (supabase_cli : option Client) (now : Z)
    (event : EventData.t) (request : Request) : M TrackResponse :=
  match supabase_cli with
  | None =>
      log "error" "event_tracking_failed" [("reason", LStr "supabase_not_configured")] ;;;
      raise (HTTPException 503 "Analytics service is not available")
  | Some cli =>
      try_except
        (let data := event_row event now in
         result <- insert_event_execute cli "events" data ;;
         log "info" "event_tracked"
           [("event_type", LStr (EventData.event_type event));
            ("page", LStr (EventData.page_url event));
            ("session", LStr (str_slice_to 8 (EventData.session_id event)))] ;;;
         ret {| message := "Event tracked successfully"; tracked := true;
                error := None |})
        (fun e =>
           log "error" "event_tracking_error"
             [("error", LStr (exc_str e));
              ("event_type", LStr (EventData.event_type event))] ;;;
           ret {| message := "Event tracking failed"; tracked := false;
                  error := None |})
  end.

Module PageEntry.
Record t := {
  url : Value;
  visits : Z
}.
End PageEntry.

Module ReferrerEntry.
Record t := {
  source : Value;
  visits : Z
}.
End ReferrerEntry.

Record Summary := {
  period_days : Z;
  start_date : Z;
  end_date : Z;
  total_visits : option Z;
  unique_visitors : Z;
  devices : Counts;
  top_pages : list PageEntry.t;
  top_referrers : list ReferrerEntry.t
}.

(** [timedelta(days=d)], in microseconds. *)
Definition timedelta_days (d : Z) : Z := (d * 86400000000)%Z.

(** [Query(default=30, ge=1, le=365)] *)
Definition Query_days (given : option Z) : M Z :=
  match given with
  | None => ret 30%Z
  | Some d =>
      if (1 <=? d)%Z && (d <=? 365)%Z then ret d
      else raise (RequestValidationError "days")
  end.

(** [len(set(v["session_id"] for v in rows if "session_id" in v))] *)
Definition unique_sessions (rows : list Row) : Z :=
  len_set (omap (fun v : Row => v !! "session_id") rows).

Definition device_key (visit : Row) : Value :=
  default (VStr "unknown") (visit !! "device_type").
Definition page_key (visit : Row) : Value :=
  default (VStr "unknown") (visit !! "page_url").
(** [visit.get("referrer") or "direct"] *)
Definition referrer_key (visit : Row) : Value :=
  let referrer := default VNone (visit !! "referrer") in
  if truthy referrer then referrer else VStr "direct".

Definition device_counts (rows : list Row) : Counts :=
  count_into [] (map device_key rows).
Definition page_counts (rows : list Row) : Counts :=
  count_into [] (map page_key rows).
Definition referrer_counts (rows : list Row) : Counts :=
  count_into [] (map referrer_key rows).

(** [sorted(counts.items(), key=lambda x: x[1], reverse=True)[:10]] *)
Definition top10 (counts : Counts) : Counts :=
  firstn 10 (sorted_by_count_reverse counts).

Definition get_summary (supabase_cli : option Client) (now : Z) (days : Z)
  : M Summary :=
  match supabase_cli with
  | None => raise (HTTPException 503 "Analytics service is not available")
  | Some cli =>
      try_except
        (let end_date := now in
         let start_date := (end_date - timedelta_days days)%Z in
         visits_result <-
           select_gte_execute cli "visits" "*" true "created_at" start_date ;;
         sessions_result <-
           select_gte_execute cli "visits" "session_id" false "created_at" start_date ;;
         let unique_sessions := unique_sessions (data sessions_result) in
         device_result <-
           select_gte_execute cli "visits" "device_type" false "created_at" start_date ;;
         let device_counts := device_counts (data device_result) in
         pages_result <-
           select_gte_execute cli "visits" "page_url" false "created_at" start_date ;;
         let top_pages := top10 (page_counts (data pages_result)) in
         referrer_result <-
           select_gte_execute cli "visits" "referrer" false "created_at" start_date ;;
         let top_referrers := top10 (referrer_counts (data referrer_result)) in
         log "info" "summary_generated"
           [("days", LInt days);
            ("total_visits", match count visits_result with
                             | Some n => LInt n | None => LNone end)] ;;;
         ret {| period_days := days;
                start_date := start_date;
                end_date := end_date;
                total_visits := count visits_result;
                unique_visitors := unique_sessions;
                devices := device_counts;
                top_pages :=
                  map (fun '(url, n) => {| PageEntry.url := url; PageEntry.visits := n |})
                      top_pages;
                top_referrers :=
                  map (fun '(ref, n) =>
                         {| ReferrerEntry.source := ref; ReferrerEntry.visits := n |})
                      top_referrers |})
        (fun e =>
           log "error" "summary_generation_error" [("error", LStr (exc_str e))] ;;;
           raise (HTTPException 500 ("Failed to generate summary: " ++ exc_str e)))
  end.

(** [GET /api/stats/summary?days=N]: the parameter is checked, then the
    handler runs. *)
Definition summary_endpoint (supabase_cli : option Client) (now : Z)
    (given : option Z) : M Summary :=
  days <- Query_days given ;;
  get_summary supabase_cli now days.

End Stats.

(** ** routers/contact.py *)

Module Contact.

Module ContactMessage.
Record t := {
  name : string;
  email : string;
  subject : option string;
  message : string
}.
End ContactMessage.

Record SubmitResponse := {
  success : bool;
  message : string;
  id : Value
}.

(** [request.headers.get("x-forwarded-for",
      request.client.host if request.client else "unknown")] *)
Definition client_ip_of (request : Request) : string :=
  default (match client request with Some host => host | None => "unknown" end)
          (headers_get (headers request) "x-forwarded-for").

(** The [data] dictionary of [submit_contact]. *)
Definition contact_row (contact : ContactMessage.t) (client_ip : string) (now : Z) : Row :=
  list_to_map
    [ ("name", VStr (ContactMessage.name contact));
      ("email", VStr (ContactMessage.email contact));
      ("subject", VStr (match ContactMessage.subject contact with
                        | Some s => if str_truthy s then s else "No subject"
                        | None => "No subject"
                        end));
      ("message", VStr (ContactMessage.message contact));
      ("created_at", VTime now);
      ("ip_address", VStr client_ip) ].

Definition submit_contact (supabase_cli : option Client) (now : Z)
    (contact : ContactMessage.t) (request : Request) : M SubmitResponse :=
  match supabase_cli with
  | None =>
      log "error" "contact_submit_failed" [("reason", LStr "supabase_not_configured")] ;;;
      raise (HTTPException 503
               "Contact service is not available. Please try again later.")
  | Some cli =>
      try_except
        (let client_ip := client_ip_of request in
         let data := contact_row contact client_ip now in
         result <- insert_execute cli "contact_messages" data ;;
         log "info" "contact_message_received"
           [("email", LStr (ContactMessage.email contact));
            ("has_subject", LBool (match ContactMessage.subject contact with
                                   | Some s => str_truthy s | None => false end));
            ("message_length", LInt (py_len (ContactMessage.message contact)));
            ("ip", LStr client_ip)] ;;;
         id <- match result with
               | [] => ret VNone
               | row :: _ =>
                   match row !! "id" with
                   | Some v => ret v
                   | None => raise (PyError "KeyError" "'id'")
                   end
               end ;;
         ret {| success := true;
                message := "Thank you for your message! I'll get back to you soon.";
                id := id |})
        (fun e =>
           log "error" "contact_submit_error"
             [("error", LStr (exc_str e)); ("error_type", LStr (exc_type_name e))] ;;;
           raise (HTTPException 500 ("Failed to submit message: " ++ exc_str e)))
  end.

End Contact.

(** ** Start-up and health of the routers, field constraints, origins *)

(** [os.getenv(name, default)] *)
Definition getenv (env : gmap string string) (name dflt : string) : string :=
  default dflt (env !! name).

(** The start-up code of [stats.py] and of [contact.py]: the module-level
    [supabase_cli]. The two differ by the service name they log.
    [create_client] is the store library's and may raise. *)
Definition supabase_cli (service : string) (env : gmap string string)
    (create_client : string -> string -> Result Client) : M (option Client) :=
  let url := getenv env "SUPABASE_URL" "" in
  let key := getenv env "SUPABASE_KEY" "" in
  if negb (str_truthy url) || negb (str_truthy key) then
    log "warning" "supabase_not_configured"
      [("message", LStr "SUPABASE_URL and SUPABASE_KEY must be set")] ;;;
    ret None
  else
    try_except
      (cli <- (fun w => (create_client url key, w)) ;;
       log "info" "supabase_initialized" [("service", LStr service)] ;;;
       ret (Some cli))
      (fun e =>
         log "error" "supabase_init_failed" [("error", LStr (exc_str e))] ;;;
         ret None).

Module Health.
Record t := {
  status : string;
  service : string;
  supabase_configured : bool
}.
End Health.

Definition stats_health (supabase_cli : option Client) : Health.t :=
  {| Health.status :=
       match supabase_cli with Some _ => "healthy" | None => "degraded" end;
     Health.service := "stats";
     Health.supabase_configured :=
       match supabase_cli with Some _ => true | None => false end |}.

Definition contact_health (supabase_cli : option Client) : Health.t :=
  {| Health.status :=
       match supabase_cli with Some _ => "healthy" | None => "degraded" end;
     Health.service := "contact";
     Health.supabase_configured :=
       match supabase_cli with Some _ => true | None => false end |}.

(** The length constraints of the fields of [ContactMessage], which hold of
    every instance. The format of [email] is checked by a library and is
    not part of this predicate. *)
Definition ContactMessage_lengths (c : Contact.ContactMessage.t) : bool :=
  (1 <=? py_len (Contact.ContactMessage.name c))%Z
  && (py_len (Contact.ContactMessage.name c) <=? 100)%Z
  && match Contact.ContactMessage.subject c with
     | Some s => (py_len s <=? 200)%Z
     | None => true
     end
  && (10 <=? py_len (Contact.ContactMessage.message c))%Z
  && (py_len (Contact.ContactMessage.message c) <=? 5000)%Z.

(** [s.split(",")] *)
Fixpoint split_comma (s : string) : list string :=
  match s with
  | EmptyString => [""]
  | String c s' =>
      if Ascii.eqb c ","%char then "" :: split_comma s'
      else match split_comma s' with
           | piece :: pieces => String c piece :: pieces
           | [] => [String c ""]
           end
  end.

(** [",".join(pieces)] *)
Fixpoint join_comma (pieces : list string) : string :=
  match pieces with
  | [] => ""
  | [piece] => piece
  | piece :: rest => piece ++ "," ++ join_comma rest
  end.

(** [main.py]: [ALLOWED_ORIGINS] and [ENVIRONMENT]. *)
Definition ALLOWED_ORIGINS (env : gmap string string) : list string :=
  split_comma (getenv env "ALLOWED_ORIGINS" "http://localhost:4321").
Definition ENVIRONMENT (env : gmap string string) : string :=
  getenv env "ENVIRONMENT" "development".

(** * Vocabulary of the specification *)

(** A lower-case hexadecimal character. *)
Definition hex_alphabet : list ascii := list_ascii_of_string "0123456789abcdef".
Definition is_hex (c : ascii) : bool := existsb (Ascii.eqb c) hex_alphabet.

(** The label of the first flag that is set in a priority list. *)
Fixpoint first_match (priority : list (bool * string)) (otherwise : string) : string :=
  match priority with
  | [] => otherwise
  | (flag, label) :: rest => if flag then label else first_match rest otherwise
  end.

(** The fixed priority list of the extractor: mobile, tablet, bot. *)
Definition device_priority (ua : UA.t) : list (bool * string) :=
  [ (UA.is_mobile ua, "mobile"); (UA.is_tablet ua, "tablet"); (UA.is_bot ua, "bot") ].

(** The user agent of a request, ["unknown"] when the header is absent. *)
Definition user_agent_of (request : Request) : string :=
  default "unknown" (headers_get (headers request) "user-agent").

(** The tables of the store are the same in two worlds. *)
Definition same_tables (w w' : World) : Prop :=
  visits w' = visits w /\ events w' = events w
  /\ contact_messages w' = contact_messages w.

(** No call was made on the store client between two worlds. *)
Definition no_store_call (w w' : World) : Prop := calls w' = calls w.

(** A bot visit as the specification describes it: a success-class
    response with [tracked: false], no call on the store, tables unchanged. *)
Definition bot_visit_untracked (supabase_cli : option Client)
    (parse_user_agent : string -> UA.t) (now : Z) (visit : Stats.VisitData.t)
    (request : Request) (w : World) : Prop :=
  let (r, w') := serve (Stats.track_visit supabase_cli parse_user_agent now visit request) w in
  (exists body, r = Json200 body /\ Stats.tracked body = false)
  /\ no_store_call w w' /\ same_tables w w'.

(** A parser that flags every user agent as a bot. *)
Definition every_bot (_ : string) : UA.t :=
  {| UA.browser := {| UA.family := "Googlebot"; UA.version_string := "2.1" |};
     UA.os := {| UA.family := "Other"; UA.version_string := "" |};
     UA.is_mobile := false; UA.is_tablet := false; UA.is_bot := true |}.

(** A parser that flags every user agent as both a phone and a bot. *)
Definition every_mobile_bot (_ : string) : UA.t :=
  {| UA.browser := {| UA.family := "Googlebot"; UA.version_string := "2.1" |};
     UA.os := {| UA.family := "Android"; UA.version_string := "6.0.1" |};
     UA.is_mobile := true; UA.is_tablet := false; UA.is_bot := true |}.

(** A parser that sees a desktop browser in every user agent. *)
Definition every_desktop (_ : string) : UA.t :=
  {| UA.browser := {| UA.family := "Firefox"; UA.version_string := "120.0" |};
     UA.os := {| UA.family := "Linux"; UA.version_string := "" |};
     UA.is_mobile := false; UA.is_tablet := false; UA.is_bot := false |}.

Definition empty_world : World :=
  {| visits := []; events := []; contact_messages := []; calls := []; logs := [] |}.

Definition sample_visit : Stats.VisitData.t :=
  {| Stats.VisitData.page_url := "/projects";
     Stats.VisitData.page_title := Some "Projects";
     Stats.VisitData.referrer := None;
     Stats.VisitData.session_id := "s-0001-abcdef";
     Stats.VisitData.screen_width := Some 1920%Z;
     Stats.VisitData.screen_height := Some 1080%Z;
     Stats.VisitData.time_on_page := None;
     Stats.VisitData.scroll_depth := None |}.

Definition sample_event : Stats.EventData.t :=
  {| Stats.EventData.session_id := "s-0001-abcdef";
     Stats.EventData.event_type := "click";
     Stats.EventData.event_data := JDict [("target", JStr "cv")];
     Stats.EventData.page_url := "/projects" |}.

Definition sample_request : Request :=
  {| headers := [("user-agent", "Mozilla/5.0");
                 ("x-forwarded-for", "203.0.113.7, 10.0.0.1")];
     client := Some "10.0.0.1" |}.

(** A client whose store accepts every call and returns the inserted row
    with the identifier 1. *)
Definition accepting_client : Client :=
  {| fault := fun _ _ => None;
     returning := fun _ _ row => [ <["id" := VInt 1]> row ] |}.

(** A client whose store accepts every call and returns no row. *)
Definition silent_client : Client :=
  {| fault := fun _ _ => None;
     returning := fun _ _ _ => [] |}.

(** A client on which every call raises. *)
Definition failing_client : Client :=
  {| fault := fun _ _ => Some (PyError "APIError" "connection refused");
     returning := fun _ _ _ => [] |}.

(** The client address as the request carries it: the whole
    [X-Forwarded-For] header when there is one, otherwise the address of
    the connection, otherwise ["unknown"]. *)
Definition raw_client_ip (request : Request) : string :=
  match headers_get (headers request) "x-forwarded-for" with
  | Some value => value
  | None => match client request with
            | Some host => host
            | None => "unknown"
            end
  end.

(** The insert that [submit_contact] makes. *)
Definition contact_insert (now : Z) (contact : Contact.ContactMessage.t)
    (request : Request) : Call :=
  CInsert "contact_messages"
    (Contact.contact_row contact (Contact.client_ip_of request) now).

(** A contact submission as the specification describes it: a success with
    a non-null identifier when the store accepts the insert, a 503 without a
    store client, a 500 when the insert raises. *)
Definition contact_accepted_with_id (supabase_cli : option Client) (now : Z)
    (contact : Contact.ContactMessage.t) (request : Request) (w : World) : Prop :=
  let (r, w') := serve (Contact.submit_contact supabase_cli now contact request) w in
  match supabase_cli with
  | None => status r = 503%Z
  | Some c =>
      match fault c (calls w) (contact_insert now contact request) with
      | Some _ => status r = 500%Z
      | None => exists body,
          r = Json200 body /\ Contact.success body = true /\ Contact.id body <> VNone
      end
  end.

Definition sample_contact : Contact.ContactMessage.t :=
  {| Contact.ContactMessage.name := "Ada";
     Contact.ContactMessage.email := "ada@example.org";
     Contact.ContactMessage.subject := None;
     Contact.ContactMessage.message := "Hello, I would like to get in touch." |}.

Definition thanks : string := "Thank you for your message! I'll get back to you soon.".

(** The start of the window of a summary. *)
Definition window_start (now days : Z) : Z := (now - Stats.timedelta_days days)%Z.

(** The visits that pass the filter of the summary queries. *)
Definition rows_since (start : Z) (w : World) : list Row :=
  List.filter (row_gte "created_at" start) (visits w).

(** A visit created in the half-open window from [start] to [stop]. *)
Definition in_window (start stop : Z) (r : Row) : bool :=
  match r !! "created_at" with
  | Some (VTime t) => (start <=? t)%Z && (t <? stop)%Z
  | _ => false
  end.

(** The world with only the visits that satisfy [keep]. *)
Definition restrict_visits (keep : Row -> bool) (w : World) : World :=
  {| visits := List.filter keep (visits w); events := events w;
     contact_messages := contact_messages w; calls := calls w; logs := logs w |}.

Definition page_entry (e : Value * Z) : Stats.PageEntry.t :=
  let '(url, n) := e in {| Stats.PageEntry.url := url; Stats.PageEntry.visits := n |}.
Definition referrer_entry (e : Value * Z) : Stats.ReferrerEntry.t :=
  let '(ref, n) := e in
  {| Stats.ReferrerEntry.source := ref; Stats.ReferrerEntry.visits := n |}.

(** The report as a function of the rows that the five queries return. *)
Definition summary_over (days now : Z) (rows : list Row) : Stats.Summary :=
  {| Stats.period_days := days;
     Stats.start_date := window_start now days;
     Stats.end_date := now;
     Stats.total_visits := Some (Z.of_nat (length rows));
     Stats.unique_visitors := Stats.unique_sessions (map (project "session_id") rows);
     Stats.devices := Stats.device_counts (map (project "device_type") rows);
     Stats.top_pages :=
       map page_entry (Stats.top10 (Stats.page_counts (map (project "page_url") rows)));
     Stats.top_referrers :=
       map referrer_entry
         (Stats.top10 (Stats.referrer_counts (map (project "referrer") rows))) |}.

(** The five queries of a summary. *)
Definition summary_queries (start : Z) : list Call :=
  [ CSelect "visits" "*" true "created_at" start;
    CSelect "visits" "session_id" false "created_at" start;
    CSelect "visits" "device_type" false "created_at" start;
    CSelect "visits" "page_url" false "created_at" start;
    CSelect "visits" "referrer" false "created_at" start ].

(** A summary as the specification describes it: rows outside the window
    from [now - days] to [now] do not contribute, so that the result is the
    one obtained on the visits of the window alone. *)
Definition summary_confined_to_window (supabase_cli : option Client) (now days : Z)
    (w : World) : Prop :=
  fst (Stats.get_summary supabase_cli now days w)
  = fst (Stats.get_summary supabase_cli now days
           (restrict_visits (in_window (window_start now days) now) w)).

(** A visit row created at [t] in session [s]. *)
Definition visit_at (t : Z) (s : string) (page : string) : Row :=
  list_to_map [ ("session_id", VStr s); ("page_url", VStr page);
                ("device_type", VStr "desktop"); ("created_at", VTime t) ].

(** One day, in microseconds. *)
Definition one_day : Z := 86400000000%Z.

(** A store with a single visit, created five microseconds after the
    instant [10 * one_day]. *)
Definition world_with_late_visit : World :=
  {| visits := [ visit_at (10 * one_day + 5) "s1" "/" ];
     events := []; contact_messages := []; calls := []; logs := [] |}.

(** A store with three visits of two sessions, two days apart. *)
Definition world_with_three_visits : World :=
  {| visits := [ visit_at (1 * one_day) "s1" "/";
                 visit_at (9 * one_day) "s1" "/cv";
                 visit_at (9 * one_day + 1) "s2" "/cv" ];
     events := []; contact_messages := []; calls := []; logs := [] |}.

(** The position of the first occurrence of [k] in [keys] (their length
    when [k] does not occur). *)
Fixpoint first_index (k : Value) (keys : list Value) : nat :=
  match keys with
  | [] => 0
  | k' :: rest => if decide (k' = k) then 0 else S (first_index k rest)
  end.

(** How many times [k] occurs in [keys]. *)
Definition occurrences (k : Value) (keys : list Value) : Z :=
  Z.of_nat (count_occ Value_eq_dec keys k).

(** Greater counts first and, among equal counts, the order [P]. *)
Definition by_count_then (P : Value * Z -> Value * Z -> Prop) (a b : Value * Z) : Prop :=
  (snd b < snd a)%Z \/ (snd a = snd b /\ P a b).

(** The order of a ranking: greater counts first and, among equal counts,
    the key met first in [keys] first. *)
Definition ranked_before (keys : list Value) : Value * Z -> Value * Z -> Prop :=
  by_count_then
    (fun a b => (first_index (fst a) keys < first_index (fst b) keys)%nat).

(** [top] is the ranking of the keys [keys], one key per row: at most ten
    entries, in non-increasing order of count, ties in the order of first
    occurrence; each entry is a key with its number of occurrences, no key
    appears twice, and a key that is left out occurs no more often than
    any of the ten entries. *)
Definition ranking_of (keys : list Value) (top : Counts) : Prop :=
  (length top <= 10)%nat
  /\ StronglySorted (fun a b => (snd b <= snd a)%Z) top
  /\ (forall i j a b,
        (i < j)%nat -> nth_error top i = Some a -> nth_error top j = Some b ->
        snd a = snd b ->
        (first_index (fst a) keys < first_index (fst b) keys)%nat)
  /\ (forall k c, In (k, c) top -> In k keys /\ c = occurrences k keys)
  /\ List.NoDup (map fst top)
  /\ (forall k, In k keys -> ~ In k (map fst top) ->
        length top = 10%nat
        /\ forall e, In e top -> (occurrences k keys <= snd e)%Z).

(** A store whose visits have the referrers null, "https://a.example",
    null, in that order. *)
Definition visit_from (t : Z) (referrer : option string) : Row :=
  <["referrer" := of_opt_str referrer]> (visit_at t "s1" "/").
Definition world_with_referrers : World :=
  {| visits := [ visit_from (9 * one_day) None;
                 visit_from (9 * one_day + 1) (Some "https://a.example");
                 visit_from (9 * one_day + 2) None ];
     events := []; contact_messages := []; calls := []; logs := [] |}.

(** The value of a column of a stored row, [None] when it has none. *)
Definition column_value (column : string) (row : Row) : Value :=
  default VNone (row !! column).

(** The string contains a comma. *)
Definition has_comma (s : string) : bool :=
  existsb (Ascii.eqb ","%char) (list_ascii_of_string s).

(** The string begins, or ends, with a character that [strip] removes. *)
Definition starts_with_space (s : string) : Prop :=
  exists p rest, In p whitespace /\ s = p ++ rest.
Definition ends_with_space (s : string) : Prop :=
  exists p rest, In p whitespace /\ s = rest ++ p.

(** A string made of characters that [strip] removes. *)
Inductive all_space : string -> Prop :=
| all_space_nil : all_space ""
| all_space_cons p s : In p whitespace -> all_space s -> all_space (p ++ s).

(** A request that carries the given X-Forwarded-For header first. *)
Definition forwarded_request (forwarded_for : string)
    (others : list (string * string)) (host : option string) : Request :=
  {| headers := ("x-forwarded-for", forwarded_for) :: others; client := host |}.

(** The sum of the counters of a dictionary. *)
Definition total_count (d : Counts) : Z := fold_right Z.add 0%Z (map snd d).

(** The log record of a failed summary. *)
Definition summary_error_record (e : PyExc) : LogRecord :=
  {| level := "error"; event := "summary_generation_error";
     fields := [("error", LStr (exc_str e))] |}.

(** A client whose store accepts the first call and raises on the others. *)
Definition flaky_client : Client :=
  {| fault := fun history _ =>
                match history with
                | [] => None
                | _ :: _ => Some (PyError "APIError" "timeout")
                end;
     returning := fun _ _ _ => [] |}.

(** The number of commas of a string. *)
Fixpoint count_commas (s : string) : nat :=
  match s with
  | EmptyString => 0
  | String c s' => ((if Ascii.eqb c ","%char then 1 else 0) + count_commas s')%nat
  end.

(** A client whose store accepts every call and returns the inserted row
    without any identifier. *)
Definition anonymous_client : Client :=
  {| fault := fun _ _ => None;
     returning := fun _ _ row => [row] |}.

(** A store library whose [create_client] raises. *)
Definition broken_create_client (_ _ : string) : Result Client :=
  Raise (PyError "SupabaseException" "Invalid URL").

(** A store library whose [create_client] succeeds. *)
Definition working_create_client (_ _ : string) : Result Client :=
  Ok accepting_client.

(** * Properties *)

(** ** The privacy hasher *)

Section Hasher.
Local Open Scope Z_scope.

Lemma hex_digit_in n : In (Sha256.hex_digit n) hex_alphabet.
Proof.
  unfold Sha256.hex_digit. apply nth_In.
  change 0xf with (Z.ones 4). rewrite Z.land_ones by lia.
  change (length _) with 16%nat.
  pose proof (Z.mod_pos_bound n (2 ^ 4) ltac:(lia)). lia.
Qed.

Lemma hex_digit_is_hex n : is_hex (Sha256.hex_digit n) = true.
Proof.
  unfold is_hex. apply existsb_exists. exists (Sha256.hex_digit n).
  split; [apply hex_digit_in | apply Ascii.eqb_refl].
Qed.

Lemma hex_is_not_continuation c : is_hex c = true -> is_continuation c = false.
Proof.
  unfold is_hex. intros H. apply existsb_exists in H as (x & Hx & E).
  apply Ascii.eqb_eq in E. subst x.
  repeat (destruct Hx as [<- | Hx]; [reflexivity |]). destruct Hx.
Qed.

Lemma slice_hex c n s :
  is_hex c = true -> str_slice_to (S n) (String c s) = String c (str_slice_to n s).
Proof. intros H. simpl. now rewrite (hex_is_not_continuation c H). Qed.

End Hasher.

Lemma hexdigest_length s : String.length (Sha256.hexdigest s) = 64%nat.
Proof. reflexivity. Qed.

Lemma hexdigest_is_hex s :
  Forall (fun c => is_hex c = true) (list_ascii_of_string (Sha256.hexdigest s)).
Proof.
  unfold Sha256.hexdigest, Sha256.hex_word. cbn [list_ascii_of_string].
  repeat (constructor; [apply hex_digit_is_hex |]). constructor.
Qed.

Lemma hash_ip_prefix ip :
  Stats.hash_ip ip
  = String.substring 0 16 (Sha256.hexdigest (Sha256.sha256 (encode ip))).
Proof.
  unfold Stats.hash_ip. generalize (Sha256.sha256 (encode ip)). intros s.
  unfold Sha256.hexdigest, Sha256.hex_word.
  rewrite !slice_hex by apply hex_digit_is_hex.
  cbn [String.substring]. do 16 f_equal.
  cbn [str_slice_to]. now rewrite (hex_is_not_continuation _ (hex_digit_is_hex _)).
Qed.

(** C6. [hash_ip] is a function of its argument: equal strings have equal
    digests. Whatever the string and its length, the digest has exactly 16
    characters, all of them hexadecimal, and they are the first 16 of the 64
    hexadecimal characters of the SHA-256 digest of the string. *)
Theorem hash_ip_sixteen_hex_of_sha256 (ip ip' : string) :
  (ip = ip' -> Stats.hash_ip ip = Stats.hash_ip ip')
  /\ String.length (Stats.hash_ip ip) = 16%nat
  /\ Forall (fun c => is_hex c = true) (list_ascii_of_string (Stats.hash_ip ip))
  /\ String.length (Sha256.hexdigest (Sha256.sha256 (encode ip))) = 64%nat
  /\ Stats.hash_ip ip
     = String.substring 0 16 (Sha256.hexdigest (Sha256.sha256 (encode ip))).
Proof.
  split; [now intros -> |].
  pose proof (hexdigest_is_hex (Sha256.sha256 (encode ip))) as Hhex.
  rewrite hash_ip_prefix.
  generalize dependent (Sha256.sha256 (encode ip)). intros s Hhex.
  split; [| split; [| split; [apply hexdigest_length | reflexivity]]].
  - reflexivity.
  - unfold Sha256.hexdigest, Sha256.hex_word in *.
    cbn [String.substring list_ascii_of_string] in *.
    repeat (constructor; [apply hex_digit_is_hex |]). constructor.
Qed.

Lemma hash_ip_sixteen_hex_of_sha256_witness :
  Stats.hash_ip "127.0.0.1" = Stats.hash_ip "127.0.0.1"
  /\ String.length (Stats.hash_ip "127.0.0.1") = 16%nat.
Proof.
  destruct (hash_ip_sixteen_hex_of_sha256 "127.0.0.1" "127.0.0.1") as (Hdet & Hlen & _).
  split; [apply Hdet; reflexivity | exact Hlen].
Defined.

(** Test vectors of SHA-256: one block, the empty message, two blocks. *)
Example sha256_constants :
  nth 0 Sha256.K 0%Z = 0x428a2f98%Z /\ nth 63 Sha256.K 0%Z = 0xc67178f2%Z
  /\ length Sha256.K = 64%nat /\ Sha256.sa Sha256.H0 = 0x6a09e667%Z.
Proof. vm_compute. repeat split. Qed.

Example sha256_abc :
  Sha256.hexdigest (Sha256.sha256 (encode "abc"))
  = "ba7816bf8f01cfea414140de5dae2223b00361a396177a9cb410ff61f20015ad".
Proof. vm_compute. reflexivity. Qed.

Example sha256_empty :
  Sha256.hexdigest (Sha256.sha256 (encode ""))
  = "e3b0c44298fc1c149afbf4c8996fb92427ae41e4649b934ca495991b7852b855".
Proof. vm_compute. reflexivity. Qed.

Example sha256_two_blocks :
  Sha256.hexdigest (Sha256.sha256 (encode
    "aaaaaaaaaaaaaaaaaaaaaaaaaaaaaaaaaaaaaaaaaaaaaaaaaaaaaaaaaaaaaaaaaaaaaa"))
  = "6bd5e5034855a11241f0dee8fc72850ffd9955b28347a86428b5fa19119f6ad0".
Proof. vm_compute. reflexivity. Qed.

Example hash_ip_localhost : Stats.hash_ip "127.0.0.1" = "12ca17b49af22894".
Proof. vm_compute. reflexivity. Qed.

Example hash_ip_unknown : Stats.hash_ip "unknown" = "b23a6a8439c0dde5".
Proof. vm_compute. reflexivity. Qed.

(** The visit tracker hashes the first entry of X-Forwarded-For, stripped;
    the contact intake keeps the whole header. *)
Example get_client_ip_first_entry : Stats.get_client_ip sample_request = "203.0.113.7".
Proof. vm_compute. reflexivity. Qed.

Example client_ip_of_whole_header :
  Contact.client_ip_of sample_request = "203.0.113.7, 10.0.0.1".
Proof. reflexivity. Qed.

Example strip_spaces : strip (bytes_str [32; 9; 49; 46; 50; 194; 160; 10]) = "1.2".
Proof. vm_compute. reflexivity. Qed.

(** ** The device extractor *)

(** C8. For every user-agent string the device type is the label of the
    first flag set among mobile, tablet, bot, and "desktop" when none is:
    "mobile" whenever the parser flags mobile, whatever the bot flag;
    otherwise "tablet" if tablet; otherwise "bot" if bot; otherwise
    "desktop". *)
Theorem device_type_first_match (parse_user_agent : string -> UA.t) (s : string) :
  let ua := parse_user_agent s in
  let d := Stats.DeviceInfo.device_type (Stats.extract_device_info parse_user_agent s) in
  d = first_match (device_priority ua) "desktop"
  /\ (UA.is_mobile ua = true -> d = "mobile")
  /\ (UA.is_mobile ua = false -> UA.is_tablet ua = true -> d = "tablet")
  /\ (UA.is_mobile ua = false -> UA.is_tablet ua = false -> UA.is_bot ua = true ->
      d = "bot")
  /\ (UA.is_mobile ua = false -> UA.is_tablet ua = false -> UA.is_bot ua = false ->
      d = "desktop").
Proof.
  cbn. destruct (parse_user_agent s) as [b o m t r]; cbn.
  repeat split; intros; subst; reflexivity.
Qed.

Lemma device_type_first_match_witness :
  UA.is_bot (every_mobile_bot "Googlebot-Mobile") = true
  /\ Stats.DeviceInfo.device_type
       (Stats.extract_device_info every_mobile_bot "Googlebot-Mobile") = "mobile".
Proof.
  split; [reflexivity |].
  apply (device_type_first_match every_mobile_bot "Googlebot-Mobile"). reflexivity.
Defined.

(** ** The days parameter *)

Lemma Query_days_accepts (d : Z) (w : World) :
  (1 <= d <= 365)%Z -> Stats.Query_days (Some d) w = (Ok d, w).
Proof.
  intros H. unfold Stats.Query_days.
  destruct (Z.leb_spec 1 d), (Z.leb_spec d 365); try lia. reflexivity.
Qed.

(** C10. A summary request without a days parameter behaves exactly as the
    request with days=30: same result, same effects. The default is an
    accepted value, and the accepted values are those from 1 to 365. *)
Theorem summary_days_defaults_to_30 (supabase_cli : option Client) (now : Z) (w : World) :
  Stats.summary_endpoint supabase_cli now None w
  = Stats.summary_endpoint supabase_cli now (Some 30%Z) w
  /\ Stats.summary_endpoint supabase_cli now None w
     = Stats.get_summary supabase_cli now 30%Z w
  /\ forall d : Z,
       (exists d', Stats.Query_days (Some d) w = (Ok d', w)) <-> (1 <= d <= 365)%Z.
Proof.
  split; [reflexivity | split; [reflexivity |]].
  intros d. split.
  - intros [d' H]. unfold Stats.Query_days in H.
    destruct (Z.leb_spec 1 d), (Z.leb_spec d 365); cbn in H;
      try discriminate; lia.
  - intros H. exists d. now apply Query_days_accepts.
Qed.

(** ** The visit and event tracker *)

Arguments Stats.visit_row : simpl never.
Arguments Stats.event_row : simpl never.
Arguments Stats.hash_ip : simpl never.
Arguments Contact.contact_row : simpl never.

Ltac run_handler :=
  unfold serve, Stats.track_visit, Stats.track_event, try_except, bind, log, ret,
    raise, insert_execute, insert_event_execute, user_agent_of in *.

Lemma track_visit_unconfigured parse_user_agent now visit request w :
  exists w',
    Stats.track_visit None parse_user_agent now visit request w
    = (Raise (HTTPException 503 "Analytics service is not available"), w')
    /\ no_store_call w w' /\ same_tables w w'.
Proof. eexists. split; [reflexivity | repeat split]. Qed.

Lemma track_event_unconfigured now event request w :
  exists w',
    Stats.track_event None now event request w
    = (Raise (HTTPException 503 "Analytics service is not available"), w')
    /\ no_store_call w w' /\ same_tables w w'.
Proof. eexists. split; [reflexivity | repeat split]. Qed.

Lemma track_visit_bot c parse_user_agent now visit request w :
  Stats.DeviceInfo.is_bot
    (Stats.extract_device_info parse_user_agent (user_agent_of request)) = true ->
  exists w',
    Stats.track_visit (Some c) parse_user_agent now visit request w
    = (Ok {| Stats.message := "Bot visit logged"; Stats.tracked := false;
             Stats.error := None |}, w')
    /\ no_store_call w w' /\ same_tables w w'.
Proof.
  intros Hbot. run_handler. rewrite Hbot.
  eexists. split; [reflexivity | repeat split].
Qed.

(** C2, as the code has it. For every visit whose user agent is classified
    as a bot, no call is made on the store and its tables are unchanged;
    with a configured store client the response is a 200 with
    [tracked: false], and without one it is the 503 of the unconfigured
    service. *)
Theorem bot_visit_never_stored (supabase_cli : option Client)
    (parse_user_agent : string -> UA.t) (now : Z) (visit : Stats.VisitData.t)
    (request : Request) (w : World) :
  Stats.DeviceInfo.is_bot
    (Stats.extract_device_info parse_user_agent (user_agent_of request)) = true ->
  let (r, w') := serve (Stats.track_visit supabase_cli parse_user_agent now visit request) w in
  no_store_call w w' /\ same_tables w w'
  /\ match supabase_cli with
     | Some _ => r = Json200 {| Stats.message := "Bot visit logged";
                                Stats.tracked := false; Stats.error := None |}
                 /\ bot_visit_untracked supabase_cli parse_user_agent now visit request w
     | None => r = ErrorResponse 503 "Analytics service is not available"
     end.
Proof.
  intros Hbot. destruct supabase_cli as [c |].
  - destruct (track_visit_bot c parse_user_agent now visit request w Hbot)
      as (w' & E & Hc & Ht).
    unfold bot_visit_untracked, serve. rewrite E. cbn.
    repeat split; try apply Hc; try apply Ht. eexists. split; reflexivity.
  - destruct (track_visit_unconfigured parse_user_agent now visit request w)
      as (w' & E & Hc & Ht).
    unfold serve. rewrite E. cbn. repeat split; try apply Hc; apply Ht.
Qed.

Lemma bot_visit_never_stored_witness :
  let (r, w') := serve (Stats.track_visit (Some accepting_client) every_bot 0
                          sample_visit sample_request) empty_world in
  status r = 200%Z /\ visits w' = [] /\ calls w' = [].
Proof.
  pose proof (bot_visit_never_stored (Some accepting_client) every_bot 0
                sample_visit sample_request empty_world eq_refl) as H.
  destruct (serve _ _) as [r w']. destruct H as (Hc & (Hv & _) & -> & _).
  repeat split; assumption.
Defined.

(** C2, as stated, fails without a store client: the bot visit is answered
    with a 503, not with a success-class response. *)
Lemma bot_visit_unconfigured_is_503 :
  Stats.DeviceInfo.is_bot
    (Stats.extract_device_info every_bot (user_agent_of sample_request)) = true
  /\ status (fst (serve (Stats.track_visit None every_bot 0 sample_visit sample_request)
                    empty_world)) = 503%Z
  /\ ~ bot_visit_untracked None every_bot 0 sample_visit sample_request empty_world.
Proof.
  split; [reflexivity | split; [reflexivity |]].
  unfold bot_visit_untracked. cbn. intros ((body & H & _) & _). discriminate H.
Qed.

Lemma track_visit_status_200 c parse_user_agent now visit request w :
  exists body w',
    Stats.track_visit (Some c) parse_user_agent now visit request w = (Ok body, w').
Proof.
  run_handler.
  destruct (Stats.DeviceInfo.is_bot _); [eauto |].
  destruct (fault c _ _); eauto.
Qed.

Lemma track_event_status_200 c now event request w :
  exists body w', Stats.track_event (Some c) now event request w = (Ok body, w').
Proof. run_handler. destruct (fault c _ _); eauto. Qed.

Lemma track_visit_insert_raises c parse_user_agent now visit request w e :
  let user_agent := user_agent_of request in
  let device_info := Stats.extract_device_info parse_user_agent user_agent in
  Stats.DeviceInfo.is_bot device_info = false ->
  fault c (calls w)
    (CInsert "visits"
       (Stats.visit_row visit (Stats.get_client_ip request) user_agent device_info
          (Stats.get_location_from_headers request) now)) = Some e ->
  exists w',
    Stats.track_visit (Some c) parse_user_agent now visit request w
    = (Ok {| Stats.message := "Visit tracking failed"; Stats.tracked := false;
             Stats.error := Some (exc_str e) |}, w')
    /\ same_tables w w'.
Proof.
  intros user_agent device_info Hbot Hfault. subst user_agent device_info.
  run_handler. rewrite Hbot, Hfault.
  eexists. split; [reflexivity | repeat split].
Qed.

Lemma track_event_insert_raises c now event request w e :
  fault c (calls w) (CInsertEvent "events" (Stats.event_row event now)) = Some e ->
  exists w',
    Stats.track_event (Some c) now event request w
    = (Ok {| Stats.message := "Event tracking failed"; Stats.tracked := false;
             Stats.error := None |}, w')
    /\ same_tables w w'.
Proof.
  intros Hfault. run_handler. rewrite Hfault.
  eexists. split; [reflexivity | repeat split].
Qed.

(** C3. For every visit and every event: without a store client the
    operation fails with a 503 and no call is made on the store; with a
    store client the status is always 200, and when the insert raises, the
    body has [tracked: false]. *)
Theorem tracking_unavailable_is_503_insert_failure_is_200
    (supabase_cli : option Client) (parse_user_agent : string -> UA.t) (now : Z)
    (visit : Stats.VisitData.t) (event : Stats.EventData.t) (request : Request)
    (w : World) :
  let (rv, wv) := serve (Stats.track_visit supabase_cli parse_user_agent now visit request) w in
  let (re, we) := serve (Stats.track_event supabase_cli now event request) w in
  match supabase_cli with
  | None =>
      status rv = 503%Z /\ no_store_call w wv /\ same_tables w wv
      /\ status re = 503%Z /\ no_store_call w we /\ same_tables w we
  | Some c =>
      status rv = 200%Z /\ status re = 200%Z
      /\ (forall e,
            Stats.DeviceInfo.is_bot
              (Stats.extract_device_info parse_user_agent (user_agent_of request)) = false ->
            fault c (calls w)
              (CInsert "visits"
                 (Stats.visit_row visit (Stats.get_client_ip request)
                    (user_agent_of request)
                    (Stats.extract_device_info parse_user_agent (user_agent_of request))
                    (Stats.get_location_from_headers request) now)) = Some e ->
            (exists body, rv = Json200 body /\ Stats.tracked body = false)
            /\ same_tables w wv)
      /\ (forall e,
            fault c (calls w) (CInsertEvent "events" (Stats.event_row event now)) = Some e ->
            (exists body, re = Json200 body /\ Stats.tracked body = false)
            /\ same_tables w we)
  end.
Proof.
  destruct supabase_cli as [c |].
  - destruct (track_visit_status_200 c parse_user_agent now visit request w)
      as (bv & wv & Ev).
    destruct (track_event_status_200 c now event request w) as (be & we & Ee).
    unfold serve. rewrite Ev, Ee. cbn.
    split; [reflexivity | split; [reflexivity | split]].
    + intros e Hbot Hfault.
      destruct (track_visit_insert_raises c parse_user_agent now visit request w e
                  Hbot Hfault) as (w' & E & Ht).
      rewrite E in Ev. injection Ev as <- <-. split; [eauto | exact Ht].
    + intros e Hfault.
      destruct (track_event_insert_raises c now event request w e Hfault)
        as (w' & E & Ht).
      rewrite E in Ee. injection Ee as <- <-. split; [eauto | exact Ht].
  - destruct (track_visit_unconfigured parse_user_agent now visit request w)
      as (wv & Ev & Hcv & Htv).
    destruct (track_event_unconfigured now event request w) as (we & Ee & Hce & Hte).
    unfold serve. rewrite Ev, Ee. cbn. repeat split; first [apply Hcv | apply Htv | apply Hce | apply Hte].
Qed.

Lemma tracking_unavailable_is_503_insert_failure_is_200_witness :
  let (rv, wv) := serve (Stats.track_visit (Some failing_client) every_desktop 0
                           sample_visit sample_request) empty_world in
  let (re, we) := serve (Stats.track_event (Some failing_client) 0
                           sample_event sample_request) empty_world in
  (exists body, rv = Json200 body /\ Stats.tracked body = false)
  /\ (exists body, re = Json200 body /\ Stats.tracked body = false).
Proof.
  pose proof (tracking_unavailable_is_503_insert_failure_is_200
                (Some failing_client) every_desktop 0 sample_visit sample_event
                sample_request empty_world) as H.
  destruct (serve (Stats.track_visit _ _ _ _ _) _) as [rv wv].
  destruct (serve (Stats.track_event _ _ _ _) _) as [re we].
  destruct H as (_ & _ & Hv & He).
  split.
  - apply (Hv (PyError "APIError" "connection refused")); reflexivity.
  - apply (He (PyError "APIError" "connection refused")); reflexivity.
Defined.

(** ** Contact intake *)

Ltac run_contact :=
  unfold serve, Contact.submit_contact, contact_insert, try_except, bind, log, ret,
    raise, insert_execute in *.

(** C4, as the code has it. A contact submission never yields a
    success-class response with [success: false]. Without a store client it
    is a 503 and no call is made; when the insert raises it is a 500; when
    the store accepts the insert it is a success carrying the [id] of the
    first returned row, a null [id] when the store returns no row, and a 500
    when the first returned row has no [id]. *)
Theorem contact_submission_outcomes (supabase_cli : option Client) (now : Z)
    (contact : Contact.ContactMessage.t) (request : Request) (w : World) :
  let (r, w') := serve (Contact.submit_contact supabase_cli now contact request) w in
  (forall body, r = Json200 body -> Contact.success body = true)
  /\ match supabase_cli with
     | None =>
         r = ErrorResponse 503 "Contact service is not available. Please try again later."
         /\ no_store_call w w' /\ same_tables w w'
     | Some c =>
         match fault c (calls w) (contact_insert now contact request) with
         | Some e => r = ErrorResponse 500 ("Failed to submit message: " ++ exc_str e)
         | None =>
             match returning c (calls w) "contact_messages"
                     (Contact.contact_row contact (Contact.client_ip_of request) now) with
             | [] => r = Json200 {| Contact.success := true; Contact.message := thanks;
                                    Contact.id := VNone |}
             | row :: _ =>
                 match row !! "id" with
                 | Some v => r = Json200 {| Contact.success := true;
                                            Contact.message := thanks; Contact.id := v |}
                 | None => r = ErrorResponse 500 "Failed to submit message: 'id'"
                 end
             end
         end
     end.
Proof.
  destruct supabase_cli as [c |]; run_contact.
  - destruct (fault c _ _) as [e |]; cbn.
    + split; [discriminate | reflexivity].
    + destruct (returning c _ _ _) as [| row rest]; cbn.
      * split; [now intros body [= <-] | reflexivity].
      * destruct (row !! "id") as [v |]; cbn.
        -- split; [now intros body [= <-] | reflexivity].
        -- split; [discriminate | reflexivity].
  - cbn. split; [discriminate | repeat split].
Qed.

(** C4, as stated, fails when the store accepts the insert and returns no
    row: the response is a success whose [id] is null. *)
Lemma contact_accepted_without_id :
  fault silent_client [] (contact_insert 0 sample_contact sample_request) = None
  /\ fst (serve (Contact.submit_contact (Some silent_client) 0 sample_contact
                   sample_request) empty_world)
     = Json200 {| Contact.success := true; Contact.message := thanks;
                  Contact.id := VNone |}
  /\ ~ contact_accepted_with_id (Some silent_client) 0 sample_contact sample_request
         empty_world.
Proof.
  split; [reflexivity | split; [reflexivity |]].
  unfold contact_accepted_with_id. cbn.
  intros (body & [= <-] & _ & Hid). now apply Hid.
Qed.

Lemma client_ip_is_raw request : Contact.client_ip_of request = raw_client_ip request.
Proof.
  unfold Contact.client_ip_of, raw_client_ip.
  now destruct (headers_get (headers request) "x-forwarded-for").
Qed.

Lemma contact_row_ip_address contact ip now :
  Contact.contact_row contact ip now !! "ip_address" = Some (VStr ip).
Proof. reflexivity. Qed.

Lemma visit_row_ip visit ip user_agent device_info location now :
  Stats.visit_row visit ip user_agent device_info location now !! "ip_hash"
  = Some (VStr (Stats.hash_ip ip))
  /\ Stats.visit_row visit ip user_agent device_info location now !! "ip_address" = None.
Proof. split; reflexivity. Qed.

Lemma submit_contact_calls c now contact request w :
  calls (snd (Contact.submit_contact (Some c) now contact request w))
  = (calls w ++ [contact_insert now contact request])%list.
Proof.
  run_contact. destruct (fault c _ _); [reflexivity |].
  destruct (returning c _ _ _) as [| row rest]; [reflexivity |].
  now destruct (row !! "id").
Qed.

Lemma submit_contact_stores c now contact request w :
  fault c (calls w) (contact_insert now contact request) = None ->
  contact_messages (snd (Contact.submit_contact (Some c) now contact request w))
  = (contact_messages w
     ++ [Contact.contact_row contact (Contact.client_ip_of request) now])%list.
Proof.
  intros Hfault. run_contact. rewrite Hfault.
  destruct (returning c _ _ _) as [| row rest]; [reflexivity |].
  now destruct (row !! "id").
Qed.

(** C9. With a store client, a contact submission makes exactly one call
    on the store: the insert of a record whose [ip_address] is the client
    address as a raw string (the whole X-Forwarded-For header when present,
    otherwise the connection address, otherwise "unknown"); when the store
    accepts the insert, that record is what the table receives. A visit
    record has no [ip_address]; it carries [ip_hash], the 16-character
    digest of the client address. *)
Theorem contact_record_keeps_raw_ip (c : Client) (now : Z)
    (contact : Contact.ContactMessage.t) (request : Request) (w : World) :
  exists record : Row,
    calls (snd (Contact.submit_contact (Some c) now contact request w))
    = (calls w ++ [CInsert "contact_messages" record])%list
    /\ record !! "ip_address" = Some (VStr (raw_client_ip request))
    /\ (fault c (calls w) (CInsert "contact_messages" record) = None ->
        contact_messages (snd (Contact.submit_contact (Some c) now contact request w))
        = (contact_messages w ++ [record])%list)
    /\ forall visit parse_user_agent,
         let visit_record :=
           Stats.visit_row visit (Stats.get_client_ip request) (user_agent_of request)
             (Stats.extract_device_info parse_user_agent (user_agent_of request))
             (Stats.get_location_from_headers request) now in
         visit_record !! "ip_address" = None
         /\ visit_record !! "ip_hash"
            = Some (VStr (Stats.hash_ip (Stats.get_client_ip request))).
Proof.
  exists (Contact.contact_row contact (Contact.client_ip_of request) now).
  split; [apply submit_contact_calls |].
  split; [rewrite contact_row_ip_address, client_ip_is_raw; reflexivity |].
  split; [apply submit_contact_stores |].
  intros visit parse_user_agent visit_record. subst visit_record.
  split; apply visit_row_ip.
Qed.

Lemma contact_record_keeps_raw_ip_witness :
  exists record : Row,
    contact_messages
      (snd (Contact.submit_contact (Some accepting_client) 0 sample_contact
              sample_request empty_world)) = [record]
    /\ record !! "ip_address" = Some (VStr "203.0.113.7, 10.0.0.1").
Proof.
  destruct (contact_record_keeps_raw_ip accepting_client 0 sample_contact
              sample_request empty_world) as (record & _ & Hip & Hstored & _).
  exists record. split; [apply Hstored; reflexivity | exact Hip].
Defined.

(** ** The summary aggregator *)

Arguments Stats.unique_sessions : simpl never.
Arguments Stats.device_counts : simpl never.
Arguments Stats.page_counts : simpl never.
Arguments Stats.referrer_counts : simpl never.
Arguments Stats.top10 : simpl never.
Arguments project : simpl never.
Arguments row_gte : simpl never.

Ltac simpl_world :=
  cbn [calls visits events contact_messages logs record_call table_rows
       String.eqb Ascii.eqb Bool.eqb data count fst snd] in *.

Ltac run_summary :=
  unfold Stats.get_summary, try_except, bind, log, ret, raise, select_gte_execute in *;
  simpl_world.

(** What a summary returns is the report over the visits that pass the
    filter [created_at >= now - days]. *)
Lemma get_summary_returns c now days w r w' :
  Stats.get_summary (Some c) now days w = (Ok r, w') ->
  r = summary_over days now (rows_since (window_start now days) w).
Proof.
  run_summary.
  repeat (destruct (fault c _ _); [discriminate |]).
  now intros [= <- <-].
Qed.

Lemma get_summary_total c now days w :
  (forall history call, fault c history call = None) ->
  exists w',
    Stats.get_summary (Some c) now days w
    = (Ok (summary_over days now (rows_since (window_start now days) w)), w').
Proof.
  intros Hno. run_summary. rewrite !Hno. eexists. reflexivity.
Qed.

Lemma filter_of_filter {A} (f keep : A -> bool) (l : list A) :
  (forall x, In x l -> f x = true -> keep x = true) ->
  List.filter f (List.filter keep l) = List.filter f l.
Proof.
  induction l as [| x l IH]; intros H; [reflexivity |]. cbn.
  assert (IH' := IH (fun y Hy => H y (or_intror Hy))).
  destruct (keep x) eqn:Hk; cbn.
  - now rewrite IH'.
  - destruct (f x) eqn:Hf; [| exact IH'].
    rewrite (H x (or_introl eq_refl) Hf) in Hk. discriminate.
Qed.

(** The result of a summary depends on the world through the calls made so
    far and the visits that pass the filter, and on nothing else. *)
Lemma get_summary_same_rows cli now days w1 w2 :
  calls w1 = calls w2 ->
  rows_since (window_start now days) w1 = rows_since (window_start now days) w2 ->
  fst (Stats.get_summary cli now days w1) = fst (Stats.get_summary cli now days w2).
Proof.
  unfold rows_since, window_start.
  destruct w1 as [v1 e1 m1 c1 l1], w2 as [v2 e2 m2 c2 l2]. cbn [calls visits].
  intros <- Hr. destruct cli as [c |]; [| reflexivity].
  run_summary. rewrite ?Hr.
  repeat (destruct (fault c _ _); simpl_world; rewrite ?Hr; [reflexivity |]).
  reflexivity.
Qed.

Lemma get_summary_restrict cli now days w keep :
  (forall row, In row (visits w) ->
     row_gte "created_at" (window_start now days) row = true -> keep row = true) ->
  fst (Stats.get_summary cli now days w)
  = fst (Stats.get_summary cli now days (restrict_visits keep w)).
Proof.
  intros H. apply get_summary_same_rows; [reflexivity |].
  unfold rows_since. cbn [visits restrict_visits]. symmetry.
  now apply filter_of_filter.
Qed.

(** The calls of a summary are its five queries, in order, up to the first
    that raises. *)
Lemma get_summary_calls cli now days w :
  exists n : nat,
    calls (snd (Stats.get_summary cli now days w))
    = (calls w ++ firstn n (summary_queries (window_start now days)))%list.
Proof.
  destruct cli as [c |]; [| exists 0%nat; cbn; now rewrite app_nil_r].
  unfold window_start. run_summary.
  destruct (fault c _ _); [exists 1%nat; reflexivity |].
  destruct (fault c _ _); [exists 2%nat; cbn; now rewrite <- app_assoc |].
  destruct (fault c _ _); [exists 3%nat; cbn; now rewrite <- !app_assoc |].
  destruct (fault c _ _); [exists 4%nat; cbn; now rewrite <- !app_assoc |].
  destruct (fault c _ _); exists 5%nat; cbn; now rewrite <- !app_assoc.
Qed.

Lemma get_summary_tables cli now days w :
  same_tables w (snd (Stats.get_summary cli now days w)).
Proof.
  destruct cli as [c |]; [| repeat split].
  run_summary.
  repeat (destruct (fault c _ _); simpl_world; [repeat split |]). repeat split.
Qed.

Lemma in_window_of_gte start stop row :
  (forall t, row !! "created_at" = Some (VTime t) -> (t < stop)%Z) ->
  row_gte "created_at" start row = true -> in_window start stop row = true.
Proof.
  unfold in_window, row_gte. intros Ht.
  destruct (row !! "created_at") as [[| | | t] |]; try discriminate.
  intros ->. specialize (Ht t eq_refl).
  now destruct (Z.ltb_spec t stop); [| lia].
Qed.

(** C1, as the code has it. Every query of a summary is a read of [visits]
    filtered by [created_at >= start_date], with [start_date = now - days]
    and [end_date = now]; the queries have no upper bound. The result is the
    one obtained on the visits created at or after [start_date] alone: a
    row created before [start_date] contributes to nothing. When no visit of
    the store is created at or after [end_date], the result is the one
    obtained on the visits of the half-open window from [start_date] to
    [end_date]. *)
Theorem summary_counts_visits_since_start (supabase_cli : option Client)
    (now days : Z) (w : World) :
  let start := window_start now days in
  start = (now - days * 86400000000)%Z
  /\ fst (Stats.get_summary supabase_cli now days w)
     = fst (Stats.get_summary supabase_cli now days
              (restrict_visits (row_gte "created_at" start) w))
  /\ (exists n : nat,
        calls (snd (Stats.get_summary supabase_cli now days w))
        = (calls w ++ firstn n (summary_queries start))%list)
  /\ same_tables w (snd (Stats.get_summary supabase_cli now days w))
  /\ (forall r w',
        Stats.get_summary supabase_cli now days w = (Ok r, w') ->
        Stats.start_date r = start /\ Stats.end_date r = now
        /\ r = summary_over days now (rows_since start w))
  /\ ((forall row t, In row (visits w) ->
         row !! "created_at" = Some (VTime t) -> (t < now)%Z) ->
      summary_confined_to_window supabase_cli now days w).
Proof.
  intros start. subst start.
  split; [reflexivity |].
  split; [now apply get_summary_restrict |].
  split; [apply get_summary_calls |].
  split; [apply get_summary_tables |].
  split.
  - intros r w' H. destruct supabase_cli as [c |]; [| discriminate].
    apply get_summary_returns in H. subst r. repeat split.
  - intros Hbefore. apply get_summary_restrict.
    intros row Hin. apply in_window_of_gte. intros t. now apply Hbefore.
Qed.

Lemma summary_counts_visits_since_start_witness :
  summary_confined_to_window (Some accepting_client) (10 * one_day) 2
    world_with_three_visits
  /\ exists r w',
       Stats.get_summary (Some accepting_client) (10 * one_day) 2 world_with_three_visits
       = (Ok r, w')
       /\ Stats.start_date r = (8 * one_day)%Z.
Proof.
  destruct (summary_counts_visits_since_start (Some accepting_client) (10 * one_day) 2
              world_with_three_visits) as (_ & _ & _ & _ & Hr & Hw).
  split.
  - apply Hw. intros row t Hin E. cbn in Hin.
    destruct Hin as [<- | [<- | [<- | []]]]; vm_compute in E;
      injection E as <-; reflexivity.
  - destruct (get_summary_total accepting_client (10 * one_day) 2
                world_with_three_visits (fun _ _ => eq_refl)) as (w' & E).
    eexists. exists w'. split; [exact E |].
    now destruct (Hr _ _ E) as (-> & _).
Defined.

(** C1, as stated, fails: a visit created after [end_date] is counted. *)
Lemma summary_counts_visit_after_end :
  (forall row, In row (visits world_with_late_visit) ->
     in_window (window_start (10 * one_day) 1) (10 * one_day) row = false)
  /\ (exists r w',
        Stats.get_summary (Some accepting_client) (10 * one_day) 1 world_with_late_visit
        = (Ok r, w')
        /\ Stats.total_visits r = Some 1%Z)
  /\ ~ summary_confined_to_window (Some accepting_client) (10 * one_day) 1
         world_with_late_visit.
Proof.
  split; [| split].
  - intros row [<- | []]. reflexivity.
  - destruct (get_summary_total accepting_client (10 * one_day) 1
                world_with_late_visit (fun _ _ => eq_refl)) as (w' & E).
    eexists. exists w'. split; [exact E | reflexivity].
  - unfold summary_confined_to_window. intros H.
    destruct (get_summary_total accepting_client (10 * one_day) 1
                world_with_late_visit (fun _ _ => eq_refl)) as (w1 & E1).
    destruct (get_summary_total accepting_client (10 * one_day) 1
                (restrict_visits (in_window (window_start (10 * one_day) 1)
                                    (10 * one_day)) world_with_late_visit)
                (fun _ _ => eq_refl)) as (w2 & E2).
    rewrite E1, E2 in H. cbn [fst] in H.
    apply (f_equal (fun r => match r with
                             | Ok s => Stats.total_visits s
                             | Raise _ => None
                             end)) in H.
    vm_compute in H. discriminate H.
Qed.

Lemma length_remove_dups_le (l : list Value) :
  (length (remove_dups l) <= length l)%nat.
Proof.
  induction l as [| x l IH]; cbn; [lia |].
  destruct (decide_rel elem_of x l); cbn; lia.
Qed.

Lemma project_column column row :
  column <> "*" -> project column row !! column = Some (default VNone (row !! column)).
Proof.
  intros H. unfold project. apply String.eqb_neq in H. rewrite H.
  apply lookup_singleton_eq.
Qed.

Lemma session_ids_of_projection (rows : list Row) :
  omap (fun v : Row => v !! "session_id") (map (project "session_id") rows)
  = map (fun row : Row => default VNone (row !! "session_id")) rows.
Proof.
  induction rows as [| row rows IH]; [reflexivity |].
  cbn -[lookup]. rewrite project_column by discriminate. cbn -[lookup].
  f_equal. exact IH.
Qed.

Lemma unique_sessions_le (rows : list Row) :
  (0 <= Stats.unique_sessions rows <= Z.of_nat (length rows))%Z.
Proof.
  unfold Stats.unique_sessions, len_set.
  pose proof (length_remove_dups_le (omap (fun v : Row => v !! "session_id") rows)).
  assert (length (omap (fun v : Row => v !! "session_id") rows) <= length rows)%nat.
  { clear. induction rows as [| row rows IH]; cbn -[lookup]; [lia |].
    destruct (row !! "session_id"); cbn -[lookup]; lia. }
  lia.
Qed.

(** C7. Whenever a summary is produced, [total_visits] is the number of
    rows that pass the filter and [unique_visitors] is the number of
    distinct [session_id] values among these rows, so that
    [unique_visitors <= total_visits]. A store that answers the five
    queries does produce a summary. *)
Theorem unique_visitors_le_total_visits (supabase_cli : option Client)
    (now days : Z) (w : World) :
  let rows := rows_since (window_start now days) w in
  (forall r w',
     Stats.get_summary supabase_cli now days w = (Ok r, w') ->
     exists (n : Z) (ids : list Value),
       Stats.total_visits r = Some n
       /\ n = Z.of_nat (length rows)
       /\ NoDup ids
       /\ (forall v, In v ids <->
                     exists row : Row, In row rows /\ default VNone (row !! "session_id") = v)
       /\ Stats.unique_visitors r = Z.of_nat (length ids)
       /\ (0 <= Stats.unique_visitors r <= n)%Z)
  /\ (forall c, supabase_cli = Some c ->
        (forall history call, fault c history call = None) ->
        exists r w', Stats.get_summary supabase_cli now days w = (Ok r, w')).
Proof.
  intros rows. split.
  - intros r w' H. destruct supabase_cli as [c |]; [| discriminate].
    apply get_summary_returns in H. subst r. fold rows.
    exists (Z.of_nat (length rows)),
      (remove_dups (map (fun row : Row => default VNone (row !! "session_id")) rows)).
    cbn [Stats.total_visits Stats.unique_visitors summary_over].
    split; [reflexivity | split; [reflexivity |]].
    split; [apply NoDup_remove_dups |].
    split; [| split].
    + intros v. rewrite <- list_elem_of_In, elem_of_remove_dups, list_elem_of_In, in_map_iff.
      split; intros (row & A & B); exists row; tauto.
    + unfold Stats.unique_sessions, len_set. now rewrite session_ids_of_projection.
    + pose proof (unique_sessions_le (map (project "session_id") rows)) as H.
      now rewrite length_map in H.
  - intros c -> Hno. destruct (get_summary_total c now days w Hno) as (w' & E). eauto.
Qed.

Lemma unique_visitors_le_total_visits_witness :
  exists r w',
    Stats.get_summary (Some accepting_client) (10 * one_day) 10 world_with_three_visits
    = (Ok r, w')
    /\ Stats.total_visits r = Some 3%Z
    /\ (Stats.unique_visitors r <= 3)%Z.
Proof.
  destruct (unique_visitors_le_total_visits (Some accepting_client) (10 * one_day) 10
              world_with_three_visits) as (Hle & Hret).
  destruct (Hret accepting_client eq_refl (fun _ _ => eq_refl)) as (r & w' & E).
  exists r, w'. split; [exact E |].
  destruct (Hle r w' E) as (n & ids & Hn & -> & _ & _ & _ & Hu).
  split; [exact Hn | exact (proj2 Hu)].
Defined.

(** ** Counting and ranking *)

Section Dictionaries.

Lemma dict_get_set d k c k' dflt :
  dict_get (dict_set d k c) k' dflt
  = if decide (k = k') then c else dict_get d k' dflt.
Proof.
  induction d as [| [k0 c0] d IH]; cbn.
  - destruct (decide (k = k')); reflexivity.
  - destruct (decide (k0 = k)) as [-> | Hne]; cbn.
    + destruct (decide (k = k')); reflexivity.
    + rewrite IH. destruct (decide (k0 = k')) as [-> | ?]; [| reflexivity].
      destruct (decide (k = k')); [congruence | reflexivity].
Qed.

Lemma dict_set_keys_old d k c :
  In k (map fst d) -> map fst (dict_set d k c) = map fst d.
Proof.
  induction d as [| [k0 c0] d IH]; cbn; [tauto |].
  intros H. destruct (decide (k0 = k)) as [-> | Hne]; cbn; [reflexivity |].
  f_equal. apply IH. destruct H; [congruence | assumption].
Qed.

Lemma dict_set_keys_new d k c :
  ~ In k (map fst d) -> map fst (dict_set d k c) = (map fst d ++ [k])%list.
Proof.
  induction d as [| [k0 c0] d IH]; cbn; [reflexivity |].
  intros H. destruct (decide (k0 = k)) as [-> | Hne]; [tauto |].
  cbn. f_equal. apply IH. tauto.
Qed.

Lemma dict_get_entry d k c dflt :
  List.NoDup (map fst d) -> In (k, c) d -> dict_get d k dflt = c.
Proof.
  induction d as [| [k0 c0] d IH]; cbn; [tauto |].
  intros Hnd Hin. apply List.NoDup_cons_iff in Hnd as [Hk0 Hnd].
  destruct Hin as [[= -> ->] | Hin].
  - destruct (decide (k = k)); [reflexivity | congruence].
  - destruct (decide (k0 = k)) as [-> | ?]; [| now apply IH].
    exfalso. apply Hk0. apply in_map_iff. now exists (k, c).
Qed.

Lemma count_into_snoc d keys k :
  count_into d (keys ++ [k])
  = dict_set (count_into d keys) k (dict_get (count_into d keys) k 0 + 1)%Z.
Proof. unfold count_into. now rewrite fold_left_app. Qed.

Lemma first_index_app_in k l l' :
  In k l -> first_index k (l ++ l') = first_index k l.
Proof.
  induction l as [| x l IH]; cbn; [tauto |].
  intros H. destruct (decide (x = k)); [reflexivity |].
  f_equal. apply IH. destruct H; [congruence | assumption].
Qed.

Lemma first_index_in_lt k l : In k l -> (first_index k l < length l)%nat.
Proof.
  induction l as [| x l IH]; cbn; [tauto |].
  intros H. destruct (decide (x = k)); [lia |].
  assert (first_index k l < length l)%nat; [| lia].
  apply IH. destruct H; [congruence | assumption].
Qed.

Lemma first_index_snoc_new k l : ~ In k l -> first_index k (l ++ [k]) = length l.
Proof.
  induction l as [| x l IH]; cbn.
  - intros _. destruct (decide (k = k)); [reflexivity | congruence].
  - intros H. destruct (decide (x = k)); [tauto |]. f_equal. apply IH. tauto.
Qed.

Lemma count_into_keys_in keys k :
  In k (map fst (count_into [] keys)) <-> In k keys.
Proof.
  induction keys as [| x keys IH] using rev_ind; [reflexivity |].
  rewrite count_into_snoc, in_app_iff. cbn.
  destruct (in_dec Value_eq_dec x (map fst (count_into [] keys))) as [Hin | Hnin].
  - rewrite dict_set_keys_old by assumption. rewrite IH.
    split; [tauto |]. intros [H | [<- | []]]; [assumption | now apply IH].
  - rewrite dict_set_keys_new by assumption. rewrite in_app_iff, IH. cbn. tauto.
Qed.

Lemma count_into_get keys k :
  dict_get (count_into [] keys) k 0 = occurrences k keys.
Proof.
  unfold occurrences.
  induction keys as [| x keys IH] using rev_ind; [reflexivity |].
  rewrite count_into_snoc, dict_get_set, count_occ_app. cbn.
  destruct (decide (x = k)) as [-> | Hne].
  - rewrite IH. destruct (Value_eq_dec k k); [lia | congruence].
  - rewrite IH. destruct (Value_eq_dec x k); [congruence | lia].
Qed.

Lemma strongly_sorted_snoc {A} (R : A -> A -> Prop) l x :
  StronglySorted R l -> (forall a, In a l -> R a x) -> StronglySorted R (l ++ [x]).
Proof.
  induction 1 as [| a l Hl IH Ha]; intros Hx; cbn.
  - repeat constructor.
  - constructor.
    + apply IH. intros b Hb. apply Hx. now right.
    + apply List.Forall_app. split; [assumption |].
      constructor; [| constructor]. apply Hx. now left.
Qed.

Lemma strongly_sorted_weaken {A} (R R' : A -> A -> Prop) l :
  (forall a b, In a l -> In b l -> R a b -> R' a b) ->
  StronglySorted R l -> StronglySorted R' l.
Proof.
  intros H Hs. induction Hs as [| a l Hl IH Ha]; constructor.
  - apply IH. intros x y Hx Hy. apply H; now right.
  - rewrite List.Forall_forall in *. intros b Hb.
    apply H; [now left | now right | now apply Ha].
Qed.

(** The keys of the counters are in the order in which they were first met. *)
Lemma count_into_keys_sorted keys :
  StronglySorted (fun a b => (first_index a keys < first_index b keys)%nat)
    (map fst (count_into [] keys)).
Proof.
  induction keys as [| x keys IH] using rev_ind; [constructor |].
  rewrite count_into_snoc.
  assert (Hold : StronglySorted
            (fun a b => (first_index a (keys ++ [x]) < first_index b (keys ++ [x]))%nat)
            (map fst (count_into [] keys))).
  { refine (strongly_sorted_weaken _ _ _ _ IH). intros a b Ha Hb.
    apply (proj1 (count_into_keys_in _ _)) in Ha, Hb.
    rewrite (first_index_app_in a), (first_index_app_in b) by assumption. tauto. }
  destruct (in_dec Value_eq_dec x (map fst (count_into [] keys))) as [Hin | Hnin].
  - now rewrite dict_set_keys_old by assumption.
  - rewrite dict_set_keys_new by assumption.
    apply strongly_sorted_snoc; [assumption |].
    intros a Ha. apply (proj1 (count_into_keys_in _ _)) in Ha.
    rewrite first_index_app_in by assumption.
    rewrite first_index_snoc_new by (now rewrite <- count_into_keys_in).
    now apply first_index_in_lt.
Qed.

Lemma strongly_sorted_lt_nodup {A} (f : A -> nat) (l : list A) :
  StronglySorted (fun a b => (f a < f b)%nat) l -> List.NoDup l.
Proof.
  induction 1 as [| a l Hl IH Ha]; constructor; [| assumption].
  intros Hin. rewrite List.Forall_forall in Ha. specialize (Ha a Hin). lia.
Qed.

Lemma count_into_keys_nodup keys : List.NoDup (map fst (count_into [] keys)).
Proof.
  exact (strongly_sorted_lt_nodup (fun a => first_index a keys) _
           (count_into_keys_sorted keys)).
Qed.

Lemma count_into_entry keys k c :
  In (k, c) (count_into [] keys) -> In k keys /\ c = occurrences k keys.
Proof.
  intros H. split.
  - apply count_into_keys_in, in_map_iff. now exists (k, c).
  - rewrite <- count_into_get.
    symmetry. now apply dict_get_entry; [apply count_into_keys_nodup |].
Qed.

Lemma count_into_has_key keys k :
  In k keys -> In (k, occurrences k keys) (count_into [] keys).
Proof.
  intros H. apply (proj2 (count_into_keys_in _ _)) in H.
  apply in_map_iff in H as ([k' c] & E & Hin).
  cbn in E. subst k'. now destruct (count_into_entry keys k c Hin) as [_ <-].
Qed.

End Dictionaries.

Section Ranking.

Variable P : Value * Z -> Value * Z -> Prop.

Lemma insert_by_count_perm x l : Permutation (insert_by_count x l) (x :: l).
Proof.
  induction l as [| y l IH]; cbn; [reflexivity |].
  destruct (snd x <? snd y)%Z; [| reflexivity].
  rewrite IH. apply perm_swap.
Qed.

Lemma sorted_by_count_reverse_perm l : Permutation (sorted_by_count_reverse l) l.
Proof.
  induction l as [| x l IH]; cbn; [reflexivity |].
  rewrite insert_by_count_perm. now constructor.
Qed.

Lemma insert_by_count_sorted x l :
  StronglySorted (by_count_then P) l -> List.Forall (P x) l ->
  StronglySorted (by_count_then P) (insert_by_count x l).
Proof.
  induction 1 as [| y l Hl IH Hy]; intros Hx; cbn; [repeat constructor |].
  apply List.Forall_cons_iff in Hx as [Hxy Hx].
  destruct (Z.ltb_spec (snd x) (snd y)) as [Hlt | Hge].
  - constructor; [now apply IH |].
    rewrite (insert_by_count_perm x l). constructor; [now left | assumption].
  - constructor; [now constructor |].
    assert (Hxy' : by_count_then P x y).
    { destruct (Z.eq_dec (snd x) (snd y)); [right; tauto | left; lia]. }
    constructor; [assumption |].
    rewrite List.Forall_forall in *. intros z Hz.
    destruct (Hy z Hz) as [? | [? ?]], Hxy' as [? | [? ?]];
      first [left; lia | right; split; [lia | now apply Hx]].
Qed.

(** Sorting a list that is in the order [P] puts it in the order of the
    counts, with [P] among equal counts: the sort is stable. *)
Lemma sorted_by_count_reverse_sorted l :
  StronglySorted P l -> StronglySorted (by_count_then P) (sorted_by_count_reverse l).
Proof.
  induction 1 as [| x l Hl IH Hx]; cbn; [constructor |].
  apply insert_by_count_sorted; [assumption |].
  now rewrite sorted_by_count_reverse_perm.
Qed.

End Ranking.

Lemma strongly_sorted_nth {A} (R : A -> A -> Prop) l :
  StronglySorted R l ->
  forall i j a b, (i < j)%nat -> nth_error l i = Some a -> nth_error l j = Some b -> R a b.
Proof.
  induction 1 as [| x l Hl IH Hx]; intros i j a b Hij Ha Hb.
  - now destruct i.
  - destruct j as [| j]; [lia |]. cbn in Hb.
    destruct i as [| i]; cbn in Ha.
    + injection Ha as <-. rewrite List.Forall_forall in Hx.
      apply Hx. eapply nth_error_In, Hb.
    + apply (IH i j); [lia | assumption | assumption].
Qed.

Lemma strongly_sorted_app_inv {A} (R : A -> A -> Prop) l1 l2 :
  StronglySorted R (l1 ++ l2) ->
  StronglySorted R l1 /\ forall a b, In a l1 -> In b l2 -> R a b.
Proof.
  induction l1 as [| x l1 IH]; cbn; intros H.
  - split; [constructor | intros a b []].
  - apply StronglySorted_inv in H as [Hs Hx]. destruct (IH Hs) as [Hs1 Hcross].
    apply List.Forall_app in Hx as [Hx1 Hx2]. split; [now constructor |].
    intros a b [<- | Ha] Hb.
    + rewrite List.Forall_forall in Hx2. now apply Hx2.
    + now apply Hcross.
Qed.

Lemma strongly_sorted_of_map {A B} (f : A -> B) (R : B -> B -> Prop) l :
  StronglySorted R (map f l) -> StronglySorted (fun a b => R (f a) (f b)) l.
Proof.
  induction l as [| x l IH]; cbn; intros H; [constructor |].
  apply StronglySorted_inv in H as [Hs Hx]. constructor; [now apply IH |].
  rewrite List.Forall_forall in *. intros a Ha. apply Hx. now apply in_map.
Qed.

(** The ten first entries of the sorted counters of [keys] are the ranking
    of [keys]. *)
Lemma top10_ranking (keys : list Value) :
  ranking_of keys (Stats.top10 (count_into [] keys)).
Proof.
  unfold Stats.top10.
  set (tally := count_into [] keys).
  set (sorted := sorted_by_count_reverse tally).
  assert (Hperm : Permutation sorted tally) by apply sorted_by_count_reverse_perm.
  assert (Hsorted : StronglySorted (ranked_before keys) sorted).
  { apply sorted_by_count_reverse_sorted.
    apply (strongly_sorted_of_map fst
             (fun a b => (first_index a keys < first_index b keys)%nat)).
    apply count_into_keys_sorted. }
  assert (Hsplit : (firstn 10 sorted ++ skipn 10 sorted)%list = sorted)
    by apply firstn_skipn.
  rewrite <- Hsplit in Hsorted.
  apply strongly_sorted_app_inv in Hsorted as [Htop Hcross].
  assert (Hin : forall e, In e (firstn 10 sorted) -> In e tally).
  { intros e He. apply (Permutation_in _ Hperm). rewrite <- Hsplit.
    apply in_or_app. now left. }
  assert (Hle : forall a b, ranked_before keys a b -> (snd b <= snd a)%Z).
  { intros a b [? | [? _]]; lia. }
  assert (Hnd : List.NoDup (map fst sorted)).
  { apply (Permutation_NoDup (Permutation_sym (Permutation_map fst Hperm))).
    apply count_into_keys_nodup. }
  split; [rewrite length_firstn; lia |].
  split.
  { refine (strongly_sorted_weaken _ _ _ _ Htop). intros a b _ _. apply Hle. }
  split.
  { intros i j a b Hij Ha Hb Heq.
    destruct (strongly_sorted_nth _ _ Htop i j a b Hij Ha Hb) as [? | [_ ?]];
      [lia | assumption]. }
  split; [intros k c Hk; now apply (count_into_entry keys k c), Hin |].
  split.
  { rewrite <- Hsplit, map_app in Hnd. now apply NoDup_app_remove_r in Hnd. }
  intros k Hk Hout.
  assert (Hrest : In (k, occurrences k keys) (skipn 10 sorted)).
  { assert (Hks : In (k, occurrences k keys) sorted).
    { apply (Permutation_in _ (Permutation_sym Hperm)). now apply count_into_has_key. }
    rewrite <- Hsplit in Hks. apply in_app_or in Hks as [Hks | Hks]; [| assumption].
    exfalso. apply Hout. apply in_map_iff. now exists (k, occurrences k keys). }
  split.
  - rewrite length_firstn.
    destruct (Nat.le_gt_cases (length sorted) 10) as [Hshort | Hlong]; [| lia].
    rewrite skipn_all2 in Hrest by assumption. destruct Hrest.
  - intros e He. apply (Hle e (k, occurrences k keys)). now apply Hcross.
Qed.

Lemma referrer_key_missing_or_null (row : Row) :
  row !! "referrer" = None \/ row !! "referrer" = Some VNone ->
  Stats.referrer_key row = VStr "direct".
Proof. unfold Stats.referrer_key. now intros [-> | ->]. Qed.

Lemma page_keys_of_projection (rows : list Row) :
  map Stats.page_key (map (project "page_url") rows)
  = map (column_value "page_url") rows.
Proof.
  rewrite map_map. apply map_ext. intros row.
  unfold Stats.page_key, column_value. now rewrite project_column by discriminate.
Qed.

Lemma referrer_keys_of_projection (rows : list Row) :
  map Stats.referrer_key (map (project "referrer") rows)
  = map Stats.referrer_key rows.
Proof.
  rewrite map_map. apply map_ext. intros row.
  unfold Stats.referrer_key. now rewrite project_column by discriminate.
Qed.

(** C5. For every list of visit rows, the ten first entries of the sorted
    page counters and of the sorted referrer counters are rankings: at most
    10 entries, in non-increasing order of count, ties in the order in
    which the keys were first met in the rows, each entry carrying the
    number of rows with its key. A row whose referrer is missing or null
    has the key "direct". The [top_pages] and [top_referrers] of every
    summary produced are such rankings of the visits that pass the filter
    of the queries. *)
Theorem top_pages_and_referrers_ranked (rows : list Row) :
  ranking_of (map Stats.page_key rows) (Stats.top10 (Stats.page_counts rows))
  /\ ranking_of (map Stats.referrer_key rows) (Stats.top10 (Stats.referrer_counts rows))
  /\ (forall row : Row,
        row !! "referrer" = None \/ row !! "referrer" = Some VNone ->
        Stats.referrer_key row = VStr "direct")
  /\ (forall supabase_cli now days w r w',
        Stats.get_summary supabase_cli now days w = (Ok r, w') ->
        rows = rows_since (window_start now days) w ->
        exists pages referrers : Counts,
          Stats.top_pages r = map page_entry pages
          /\ Stats.top_referrers r = map referrer_entry referrers
          /\ ranking_of (map (column_value "page_url") rows) pages
          /\ ranking_of (map Stats.referrer_key rows) referrers).
Proof.
  split; [apply top10_ranking |].
  split; [apply top10_ranking |].
  split; [apply referrer_key_missing_or_null |].
  intros supabase_cli now days w r w' H ->.
  destruct supabase_cli as [c |]; [| discriminate].
  apply get_summary_returns in H. subst r.
  set (rows := rows_since (window_start now days) w).
  exists (Stats.top10 (Stats.page_counts (map (project "page_url") rows))),
    (Stats.top10 (Stats.referrer_counts (map (project "referrer") rows))).
  split; [reflexivity | split; [reflexivity |]].
  split.
  - rewrite <- page_keys_of_projection. apply top10_ranking.
  - rewrite <- referrer_keys_of_projection. apply top10_ranking.
Qed.

Lemma top_pages_and_referrers_ranked_witness :
  Stats.referrer_key (visit_from 0 None) = VStr "direct"
  /\ exists r w' referrers,
       Stats.get_summary (Some accepting_client) (10 * one_day) 2 world_with_referrers
       = (Ok r, w')
       /\ Stats.top_referrers r = map referrer_entry referrers
       /\ (length referrers <= 10)%nat.
Proof.
  destruct (top_pages_and_referrers_ranked
              (rows_since (window_start (10 * one_day) 2) world_with_referrers))
    as (_ & _ & Hdirect & Hreport).
  split; [apply Hdirect; right; reflexivity |].
  destruct (get_summary_total accepting_client (10 * one_day) 2 world_with_referrers
              (fun _ _ => eq_refl)) as (w' & E).
  destruct (Hreport _ _ _ _ _ _ E eq_refl) as (pages & referrers & _ & Hr & _ & Hrank).
  eexists. exists w', referrers.
  split; [exact E | split; [exact Hr | apply Hrank]].
Defined.

(** Two visits without referrer in the window are both counted under
    "direct", which comes first. *)
Example two_null_referrers_count_as_direct :
  Stats.top10 (Stats.referrer_counts
                 (map (project "referrer")
                    (rows_since (window_start (10 * one_day) 2) world_with_referrers)))
  = [ (VStr "direct", 2%Z); (VStr "https://a.example", 1%Z) ].
Proof. vm_compute. reflexivity. Qed.

(** With equal counts, the page met first comes first. *)
Example tie_keeps_first_met_first :
  Stats.top10 (count_into [] [VStr "/b"; VStr "/a"; VStr "/c"; VStr "/a"; VStr "/b";
                              VStr "/c"; VStr "/c"])
  = [ (VStr "/c", 3%Z); (VStr "/b", 2%Z); (VStr "/a", 2%Z) ].
Proof. vm_compute. reflexivity. Qed.

(** * Further properties of the code *)

(** ** Strings *)

Section Strings.

Lemma str_app_cons c a b : String c a ++ b = String c (a ++ b).
Proof. reflexivity. Qed.

Lemma str_app_nil_l b : "" ++ b = b.
Proof. reflexivity. Qed.

Lemma str_app_nil_r s : s ++ "" = s.
Proof.
  induction s as [| c s IH]; [reflexivity |]. now rewrite str_app_cons, IH.
Qed.

Lemma str_app_assoc a b c : (a ++ b) ++ c = a ++ (b ++ c).
Proof.
  induction a as [| x a IH]; [reflexivity |]. now rewrite !str_app_cons, IH.
Qed.

Lemma str_length_app a b :
  String.length (a ++ b) = (String.length a + String.length b)%nat.
Proof.
  induction a as [| x a IH]; [reflexivity |]. rewrite str_app_cons. cbn.
  now rewrite IH.
Qed.

Lemma drop_prefix_app p s : drop_prefix p (p ++ s) = Some s.
Proof.
  induction p as [| a p IH]; [rewrite str_app_nil_l; now destruct s |].
  rewrite str_app_cons. cbn. now rewrite Ascii.eqb_refl.
Qed.

Lemma drop_prefix_Some p s s' : drop_prefix p s = Some s' -> s = p ++ s'.
Proof.
  revert s. induction p as [| a p IH]; intros s H.
  - destruct s; cbn in H; now injection H as <-.
  - destruct s as [| b s]; cbn in H; [discriminate |].
    destruct (Ascii.eqb_spec a b) as [-> | ?]; [| discriminate].
    rewrite str_app_cons. f_equal. now apply IH.
Qed.

Lemma drop_any_Some ps s s' :
  drop_any ps s = Some s' -> exists p, In p ps /\ s = p ++ s'.
Proof.
  induction ps as [| p ps IH]; cbn; [discriminate |].
  destruct (drop_prefix p s) as [t |] eqn:E.
  - intros [= <-]. exists p. split; [now left | now apply drop_prefix_Some].
  - intros H. destruct (IH H) as (q & Hq & Hs). exists q. split; [now right | exact Hs].
Qed.

Lemma drop_any_None ps s :
  drop_any ps s = None -> forall p rest, In p ps -> s <> p ++ rest.
Proof.
  induction ps as [| q ps IH]; cbn; [intros _ p rest [] |].
  destruct (drop_prefix q s) as [t |] eqn:E; [discriminate |].
  intros H p rest [<- | Hin] ->.
  - rewrite drop_prefix_app in E. discriminate.
  - now apply (IH H p rest Hin).
Qed.

Lemma lstrip_with_split ps fuel s :
  exists pre, s = pre ++ lstrip_with ps fuel s
              /\ (forall P : string -> Prop,
                    P "" -> (forall p t, In p ps -> P t -> P (p ++ t)) -> P pre).
Proof.
  revert s. induction fuel as [| fuel IH]; intros s; cbn.
  - exists "". split; [reflexivity | auto].
  - destruct (drop_any ps s) as [s' |] eqn:E.
    + destruct (drop_any_Some _ _ _ E) as (p & Hp & ->).
      destruct (IH s') as (pre & Hs & Hpre).
      exists (p ++ pre). split.
      * rewrite str_app_assoc. now rewrite <- Hs.
      * intros P P0 Pstep. apply Pstep; [assumption |]. now apply Hpre.
    + exists "". split; [reflexivity | auto].
Qed.

Lemma lstrip_with_done ps fuel s :
  (forall p, In p ps -> p <> "") -> (String.length s <= fuel)%nat ->
  drop_any ps (lstrip_with ps fuel s) = None.
Proof.
  intros Hne. revert s. induction fuel as [| fuel IH]; intros s Hlen; cbn.
  - destruct s; [| cbn in Hlen; lia].
    destruct (drop_any ps "") as [t |] eqn:E; [| reflexivity].
    destruct (drop_any_Some _ _ _ E) as (p & Hp & Hs).
    destruct p; [now apply Hne in Hp | discriminate].
  - destruct (drop_any ps s) as [s' |] eqn:E; [| exact E].
    apply IH. destruct (drop_any_Some _ _ _ E) as (p & Hp & ->).
    rewrite str_length_app in Hlen.
    destruct p; [now apply Hne in Hp | cbn in Hlen; lia].
Qed.

Lemma str_rev_onto_app s acc : str_rev_onto s acc = str_rev s ++ acc.
Proof.
  unfold str_rev. revert acc. induction s as [| c s IH]; intros acc; cbn; [reflexivity |].
  rewrite IH, (IH (String c "")), str_app_assoc. reflexivity.
Qed.

Lemma str_rev_cons c s : str_rev (String c s) = str_rev s ++ String c "".
Proof. unfold str_rev at 1. cbn. apply str_rev_onto_app. Qed.

Lemma str_rev_app a b : str_rev (a ++ b) = str_rev b ++ str_rev a.
Proof.
  induction a as [| c a IH].
  - rewrite str_app_nil_l. change (str_rev "") with "". now rewrite str_app_nil_r.
  - now rewrite str_app_cons, !str_rev_cons, IH, str_app_assoc.
Qed.

Lemma str_rev_involutive s : str_rev (str_rev s) = s.
Proof.
  induction s as [| c s IH]; [reflexivity |].
  now rewrite str_rev_cons, str_rev_app, IH.
Qed.

Lemma str_rev_length s : String.length (str_rev s) = String.length s.
Proof.
  induction s as [| c s IH]; [reflexivity |].
  rewrite str_rev_cons, str_length_app, IH. cbn. lia.
Qed.

Lemma whitespace_nonempty p : In p whitespace -> p <> "".
Proof.
  intros H ->. revert H. vm_compute.
  repeat (intros [H | H]; [discriminate H | revert H]). tauto.
Qed.

Lemma rev_whitespace_nonempty p : In p (map str_rev whitespace) -> p <> "".
Proof.
  intros H. apply in_map_iff in H as (q & <- & Hq). intros E.
  apply (whitespace_nonempty q Hq).
  now rewrite <- (str_rev_involutive q), E.
Qed.

Lemma all_space_app a b : all_space a -> all_space b -> all_space (a ++ b).
Proof.
  induction 1 as [| p s Hp Hs IH]; intros Hb; [exact Hb |].
  rewrite str_app_assoc. constructor; [assumption | now apply IH].
Qed.

Lemma all_space_rev s :
  (forall P : string -> Prop,
     P "" -> (forall p t, In p (map str_rev whitespace) -> P t -> P (p ++ t)) -> P s) ->
  all_space (str_rev s).
Proof.
  intros H. apply H.
  - constructor.
  - intros p t Hp Ht. apply in_map_iff in Hp as (q & <- & Hq).
    rewrite str_rev_app, str_rev_involutive.
    apply all_space_app; [assumption |].
    rewrite <- (str_app_nil_r q). constructor; [assumption | constructor].
Qed.

(** What [strip] does: it removes a run of whitespace on each side and
    leaves a string that neither begins nor ends with whitespace. *)
Lemma strip_spec s :
  exists pre suf,
    s = pre ++ strip s ++ suf /\ all_space pre /\ all_space suf
    /\ ~ starts_with_space (strip s) /\ ~ ends_with_space (strip s).
Proof.
  unfold strip, rstrip, lstrip.
  destruct (lstrip_with_split whitespace (String.length s) s) as (pre & Hs & Hpre).
  set (l := lstrip_with whitespace (String.length s) s) in *.
  assert (Hl : drop_any whitespace l = None)
    by (apply lstrip_with_done; [apply whitespace_nonempty | lia]).
  destruct (lstrip_with_split (map str_rev whitespace) (String.length l) (str_rev l))
    as (suf & Hr & Hsuf).
  set (r := lstrip_with (map str_rev whitespace) (String.length l) (str_rev l)) in *.
  assert (Hrd : drop_any (map str_rev whitespace) r = None).
  { apply lstrip_with_done; [apply rev_whitespace_nonempty |].
    now rewrite str_rev_length. }
  assert (El : l = str_rev r ++ str_rev suf).
  { now rewrite <- str_rev_app, <- Hr, str_rev_involutive. }
  exists pre, (str_rev suf). split; [now rewrite <- El |].
  split; [apply Hpre; [constructor | intros; now constructor] |].
  split; [now apply all_space_rev |].
  split.
  - intros (p & rest & Hp & E).
    apply (drop_any_None _ _ Hl p (rest ++ str_rev suf) Hp).
    now rewrite El, E, str_app_assoc.
  - intros (p & rest & Hp & E).
    apply (drop_any_None _ _ Hrd (str_rev p) (str_rev rest)).
    + now apply in_map.
    + now rewrite <- str_rev_app, <- E, str_rev_involutive.
Qed.

Lemma has_comma_app a b : has_comma (a ++ b) = has_comma a || has_comma b.
Proof.
  unfold has_comma. induction a as [| c a IH]; [reflexivity |].
  rewrite str_app_cons. cbn [list_ascii_of_string existsb].
  now rewrite IH, orb_assoc.
Qed.

Lemma split_comma_first_no_comma s : has_comma (split_comma_first s) = false.
Proof.
  induction s as [| c s IH]; [reflexivity |]. cbn [split_comma_first].
  destruct (Ascii.eqb_spec c ","%char) as [-> | Hne]; [reflexivity |].
  unfold has_comma in *. cbn [list_ascii_of_string existsb]. rewrite IH.
  destruct (Ascii.eqb_spec ","%char c); [congruence | reflexivity].
Qed.

Lemma strip_no_comma s : has_comma s = false -> has_comma (strip s) = false.
Proof.
  destruct (strip_spec s) as (pre & suf & E & _). intros H.
  rewrite E, !has_comma_app in H.
  destruct (has_comma (strip s)); [| reflexivity].
  now rewrite orb_true_r in H.
Qed.

End Strings.

(** ** The client address and the location *)

Lemma str_truthy_nonempty s : s <> "" -> str_truthy s = true.
Proof. now destruct s. Qed.

Lemma split_comma_first_app a rest :
  has_comma a = false -> split_comma_first (a ++ "," ++ rest) = a.
Proof.
  unfold has_comma. induction a as [| c a IH]; [reflexivity |].
  rewrite str_app_cons. cbn [list_ascii_of_string existsb split_comma_first].
  intros H. apply orb_false_elim in H as [Hc Ha].
  destruct (Ascii.eqb_spec c ","%char) as [-> | _].
  - now rewrite Ascii.eqb_refl in Hc.
  - now rewrite IH.
Qed.

Lemma split_comma_first_id a : has_comma a = false -> split_comma_first a = a.
Proof.
  unfold has_comma. induction a as [| c a IH]; [reflexivity |].
  cbn [list_ascii_of_string existsb split_comma_first].
  intros H. apply orb_false_elim in H as [Hc Ha].
  destruct (Ascii.eqb_spec c ","%char) as [-> | _].
  - now rewrite Ascii.eqb_refl in Hc.
  - now rewrite IH.
Qed.

(** X1. When the request has a non-empty X-Forwarded-For header, the client
    address is the first comma-separated entry of the header without the
    whitespace around it: it contains no comma and neither begins nor ends
    with whitespace, whatever X-Real-IP and the connection say. *)
Theorem get_client_ip_of_forwarded_for (request : Request) (forwarded_for : string) :
  headers_get (headers request) "x-forwarded-for" = Some forwarded_for ->
  forwarded_for <> "" ->
  let ip := Stats.get_client_ip request in
  has_comma ip = false
  /\ ~ starts_with_space ip
  /\ ~ ends_with_space ip
  /\ exists pre suf,
       split_comma_first forwarded_for = pre ++ ip ++ suf
       /\ all_space pre /\ all_space suf.
Proof.
  intros Hget Hne ip. subst ip. unfold Stats.get_client_ip.
  rewrite Hget, (str_truthy_nonempty _ Hne).
  destruct (strip_spec (split_comma_first forwarded_for))
    as (pre & suf & E & Hpre & Hsuf & Hstart & Hend).
  split; [apply strip_no_comma, split_comma_first_no_comma |].
  split; [assumption | split; [assumption |]]. now exists pre, suf.
Qed.

Lemma get_client_ip_of_forwarded_for_witness :
  has_comma (Stats.get_client_ip sample_request) = false
  /\ ~ starts_with_space (Stats.get_client_ip sample_request).
Proof.
  destruct (get_client_ip_of_forwarded_for sample_request "203.0.113.7, 10.0.0.1")
    as (H1 & H2 & _); [reflexivity | discriminate |].
  split; assumption.
Defined.

(** X2. The client address depends on the first entry of X-Forwarded-For
    only: two requests whose headers begin with the same entry, followed by
    any chain of proxies, other headers and connection, have the same
    client address, hence the same [ip_hash]. *)
Theorem get_client_ip_ignores_later_proxies (first rest1 rest2 : string)
    (others1 others2 : list (string * string)) (host1 host2 : option string) :
  has_comma first = false -> first <> "" ->
  let r1 := forwarded_request (first ++ "," ++ rest1) others1 host1 in
  let r2 := forwarded_request (first ++ "," ++ rest2) others2 host2 in
  Stats.get_client_ip r1 = strip first
  /\ Stats.get_client_ip r2 = Stats.get_client_ip r1
  /\ Stats.hash_ip (Stats.get_client_ip r2) = Stats.hash_ip (Stats.get_client_ip r1)
  /\ Stats.get_client_ip (forwarded_request first others1 host1) = strip first.
Proof.
  intros Hc Hne r1 r2. subst r1 r2.
  assert (Hget : forall v others host,
            v <> "" -> Stats.get_client_ip (forwarded_request v others host)
                       = strip (split_comma_first v)).
  { intros v others host Hv. unfold Stats.get_client_ip, forwarded_request.
    cbn [headers headers_get String.eqb Ascii.eqb Bool.eqb].
    now rewrite (str_truthy_nonempty _ Hv). }
  assert (Hlong : forall rest, first ++ "," ++ rest <> "")
    by (intros rest; destruct first; [congruence | discriminate]).
  rewrite !Hget, !split_comma_first_app, split_comma_first_id by auto.
  repeat split.
Qed.

Lemma get_client_ip_ignores_later_proxies_witness :
  Stats.get_client_ip (forwarded_request "203.0.113.7,10.0.0.1" [] None)
  = Stats.get_client_ip
      (forwarded_request "203.0.113.7,10.9.9.9, 10.0.0.1" [("x-real-ip", "10.0.0.2")]
         (Some "10.0.0.3")).
Proof.
  destruct (get_client_ip_ignores_later_proxies "203.0.113.7" "10.9.9.9, 10.0.0.1"
              "10.0.0.1" [("x-real-ip", "10.0.0.2")] [] (Some "10.0.0.3") None)
    as (_ & H & _); [reflexivity | discriminate |].
  exact H.
Defined.

(** X3. A forwarded header that begins with a comma has an empty first
    entry: the client address is then the empty string, X-Real-IP and the
    connection are not consulted, and every such visit is stored with the
    digest of the empty string. An empty header, in contrast, is ignored. *)
Theorem get_client_ip_leading_comma (rest : string) (others : list (string * string))
    (host : option string) :
  Stats.get_client_ip (forwarded_request ("," ++ rest) others host) = ""
  /\ Stats.hash_ip (Stats.get_client_ip (forwarded_request ("," ++ rest) others host))
     = "e3b0c44298fc1c14"
  /\ (headers_get others "x-forwarded-for" = None ->
      Stats.get_client_ip (forwarded_request "" others host)
      = Stats.get_client_ip {| headers := others; client := host |}).
Proof.
  assert (E : Stats.get_client_ip (forwarded_request ("," ++ rest) others host) = "")
    by reflexivity.
  split; [exact E | split].
  - rewrite E. vm_compute. reflexivity.
  - intros Hnone. unfold Stats.get_client_ip, forwarded_request.
    cbn [headers client headers_get String.eqb Ascii.eqb Bool.eqb str_truthy].
    now rewrite Hnone.
Qed.

Lemma get_client_ip_leading_comma_witness :
  Stats.get_client_ip (forwarded_request "" [("x-real-ip", "198.51.100.4")] None)
  = "198.51.100.4".
Proof.
  destruct (get_client_ip_leading_comma "" [("x-real-ip", "198.51.100.4")] None)
    as (_ & _ & H).
  rewrite H; reflexivity.
Defined.

(** X4. The location never holds an empty string: an empty header counts
    as absent. The country is the value of one of the three country headers,
    the CloudFront header having priority when it is not empty, and it is
    absent exactly when the three headers are absent or empty; the same
    holds of the city and its two headers. *)
Theorem location_skips_empty_headers (request : Request) :
  let get := headers_get (headers request) in
  let nonempty name := exists v, get name = Some v /\ v <> "" in
  let loc := Stats.get_location_from_headers request in
  Stats.Location.country loc <> Some ""
  /\ Stats.Location.city loc <> Some ""
  /\ (forall v, get "cloudfront-viewer-country" = Some v -> v <> "" ->
       Stats.Location.country loc = Some v)
  /\ (forall v, get "cloudfront-viewer-city" = Some v -> v <> "" ->
       Stats.Location.city loc = Some v)
  /\ (forall c, Stats.Location.country loc = Some c ->
       In (Some c) [get "cloudfront-viewer-country"; get "x-country-code";
                    get "cf-ipcountry"])
  /\ (forall c, Stats.Location.city loc = Some c ->
       In (Some c) [get "cloudfront-viewer-city"; get "x-city"])
  /\ (Stats.Location.country loc = None <->
      ~ nonempty "cloudfront-viewer-country" /\ ~ nonempty "x-country-code"
      /\ ~ nonempty "cf-ipcountry")
  /\ (Stats.Location.city loc = None <->
      ~ nonempty "cloudfront-viewer-city" /\ ~ nonempty "x-city").
Proof.
  intros get nonempty loc. subst get nonempty loc.
  unfold Stats.get_location_from_headers.
  cbn [Stats.Location.country Stats.Location.city].
  generalize (headers_get (headers request) "cloudfront-viewer-country"),
    (headers_get (headers request) "x-country-code"),
    (headers_get (headers request) "cf-ipcountry"),
    (headers_get (headers request) "cloudfront-viewer-city"),
    (headers_get (headers request) "x-city").
  intros a b c d e.
  assert (Hopt : forall o : option string,
            (exists v, o = Some v /\ v <> "")
            \/ (opt_or o = fun x => x) /\ ~ (exists v, o = Some v /\ v <> "")).
  { intros [[| ch s] |].
    - right. split; [reflexivity | intros (v & [= <-] & H); congruence].
    - left. eexists. split; [reflexivity | discriminate].
    - right. split; [reflexivity | intros (v & [=] & _)]. }
  assert (Hsome : forall v o, v <> "" -> opt_or (Some v) o = Some v)
    by (intros [| ch s] o H; [congruence | reflexivity]).
  destruct (Hopt a) as [(va & -> & Ha) | [Ea Na]],
           (Hopt b) as [(vb & -> & Hb) | [Eb Nb]],
           (Hopt c) as [(vc & -> & Hc) | [Ec Nc]],
           (Hopt d) as [(vd & -> & Hd) | [Ed Nd]],
           (Hopt e) as [(ve & -> & He) | [Ee Ne]];
    rewrite ?Ea, ?Eb, ?Ec, ?Ed, ?Ee, ?Hsome by assumption;
    repeat match goal with
           | |- _ /\ _ => split
           | |- _ <-> _ => split
           | |- Some _ <> Some _ => congruence
           | |- None <> Some _ => discriminate
           | |- forall _, _ => intro
           | H : Some _ = Some _ |- _ => injection H as ->
           | H : Some _ = None |- _ => discriminate H
           | H : None = Some _ |- _ => discriminate H
           | |- None = None => reflexivity
           | |- Some ?x = Some ?x => reflexivity
           | |- ~ _ => assumption
           | H : _ /\ _ |- _ => destruct H
           | |- In _ _ => cbn; tauto
           end;
    try solve [exfalso; eauto | congruence | eauto].
Qed.

(** ** What the tracker stores *)

Lemma visit_row_columns visit ip user_agent device_info location now :
  let row := Stats.visit_row visit ip user_agent device_info location now in
  row !! "device_type" = Some (VStr (Stats.DeviceInfo.device_type device_info))
  /\ row !! "created_at" = Some (VTime now)
  /\ row !! "session_id" = Some (VStr (Stats.VisitData.session_id visit))
  /\ row !! "page_url" = Some (VStr (Stats.VisitData.page_url visit))
  /\ row !! "referrer" = Some (of_opt_str (Stats.VisitData.referrer visit))
  /\ row !! "country" = Some (of_opt_str (Stats.Location.country location))
  /\ row !! "is_bot" = None.
Proof. repeat split; reflexivity. Qed.

Lemma device_type_of_non_bot parse_user_agent s :
  Stats.DeviceInfo.is_bot (Stats.extract_device_info parse_user_agent s) = false ->
  In (Stats.DeviceInfo.device_type (Stats.extract_device_info parse_user_agent s))
     ["mobile"; "tablet"; "desktop"].
Proof.
  unfold Stats.extract_device_info. cbn [Stats.DeviceInfo.is_bot Stats.DeviceInfo.device_type].
  intros ->.
  destruct (UA.is_mobile (parse_user_agent s)), (UA.is_tablet (parse_user_agent s));
    cbn; tauto.
Qed.

(** X5. With a store client, a visit changes neither the events nor the
    contact messages. A bot visit makes no call. Any other visit makes
    exactly one call, the insert into [visits] of a row whose device type
    is "mobile", "tablet" or "desktop" (never "bot"), whose [ip_hash] is
    the digest of the client address and whose [created_at] is the current
    time; the row is appended to [visits] and the answer says
    [tracked: true] when the store accepts it, and [visits] is unchanged
    and the answer carries the text of the exception when the insert
    raises. *)
Theorem track_visit_effects (c : Client) (parse_user_agent : string -> UA.t)
    (now : Z) (visit : Stats.VisitData.t) (request : Request) (w : World) :
  let device_info := Stats.extract_device_info parse_user_agent (user_agent_of request) in
  let row := Stats.visit_row visit (Stats.get_client_ip request) (user_agent_of request)
               device_info (Stats.get_location_from_headers request) now in
  let (r, w') := Stats.track_visit (Some c) parse_user_agent now visit request w in
  events w' = events w /\ contact_messages w' = contact_messages w
  /\ if Stats.DeviceInfo.is_bot device_info
     then calls w' = calls w /\ visits w' = visits w
     else calls w' = (calls w ++ [CInsert "visits" row])%list
          /\ (exists d, row !! "device_type" = Some (VStr d)
                        /\ In d ["mobile"; "tablet"; "desktop"])
          /\ row !! "ip_hash" = Some (VStr (Stats.hash_ip (Stats.get_client_ip request)))
          /\ row !! "created_at" = Some (VTime now)
          /\ match fault c (calls w) (CInsert "visits" row) with
             | None =>
                 r = Ok {| Stats.message := "Visit tracked successfully";
                           Stats.tracked := true; Stats.error := None |}
                 /\ visits w' = (visits w ++ [row])%list
             | Some e =>
                 r = Ok {| Stats.message := "Visit tracking failed";
                           Stats.tracked := false; Stats.error := Some (exc_str e) |}
                 /\ visits w' = visits w
             end.
Proof.
  intros device_info row. subst row device_info.
  pose proof (device_type_of_non_bot parse_user_agent (user_agent_of request)) as Hdev.
  unfold Stats.track_visit, try_except, bind, log, ret, raise, insert_execute.
  fold (user_agent_of request).
  set (device_info := Stats.extract_device_info parse_user_agent (user_agent_of request))
    in *.
  destruct (Stats.DeviceInfo.is_bot device_info).
  - repeat split.
  - assert (Hd : exists d, Stats.visit_row visit (Stats.get_client_ip request)
                            (user_agent_of request) device_info
                            (Stats.get_location_from_headers request) now
                          !! "device_type" = Some (VStr d)
                          /\ In d ["mobile"; "tablet"; "desktop"])
      by (eexists; split; [reflexivity | now apply Hdev]).
    destruct (fault c _ _);
      cbn [events visits contact_messages calls logs record_call store_row
           String.eqb Ascii.eqb Bool.eqb];
      repeat split; exact Hd.
Qed.

(** X6. Event tracking never looks at the request: there is no bot filter,
    and the same event gives the same result whatever the headers. With a
    store client it makes exactly one call, the insert into [events] of the
    payload stamped with the current time; visits and contact messages are
    unchanged; the event is appended and the answer says [tracked: true]
    when the store accepts it, and nothing is stored when the insert
    raises. *)
Theorem track_event_effects (supabase_cli : option Client) (c : Client) (now : Z)
    (event : Stats.EventData.t) (request request' : Request) (w : World) :
  Stats.track_event supabase_cli now event request w
  = Stats.track_event supabase_cli now event request' w
  /\ let row := {| EventRow.session_id := Stats.EventData.session_id event;
                   EventRow.event_type := Stats.EventData.event_type event;
                   EventRow.event_data := Stats.EventData.event_data event;
                   EventRow.page_url := Stats.EventData.page_url event;
                   EventRow.created_at := now |} in
     let (r, w') := Stats.track_event (Some c) now event request w in
     visits w' = visits w /\ contact_messages w' = contact_messages w
     /\ calls w' = (calls w ++ [CInsertEvent "events" row])%list
     /\ match fault c (calls w) (CInsertEvent "events" row) with
        | None =>
            r = Ok {| Stats.message := "Event tracked successfully";
                      Stats.tracked := true; Stats.error := None |}
            /\ events w' = (events w ++ [row])%list
        | Some e =>
            r = Ok {| Stats.message := "Event tracking failed";
                      Stats.tracked := false; Stats.error := None |}
            /\ events w' = events w
        end.
Proof.
  split; [reflexivity |].
  intros row. subst row. run_handler. unfold Stats.event_row.
  destruct (fault c _ _); repeat split.
Qed.

(** ** Tracking, then summarising *)

Lemma track_visit_world c parse_user_agent now visit request w :
  (forall history call, fault c history call = None) ->
  let device_info := Stats.extract_device_info parse_user_agent (user_agent_of request) in
  let row := Stats.visit_row visit (Stats.get_client_ip request) (user_agent_of request)
               device_info (Stats.get_location_from_headers request) now in
  let w' := snd (Stats.track_visit (Some c) parse_user_agent now visit request w) in
  visits w' = (if Stats.DeviceInfo.is_bot device_info then visits w
               else visits w ++ [row])%list.
Proof.
  intros Hno device_info row w'. subst w' row device_info.
  unfold Stats.track_visit, try_except, bind, log, ret, raise, insert_execute.
  fold (user_agent_of request).
  destruct (Stats.DeviceInfo.is_bot _); [reflexivity |].
  now rewrite Hno.
Qed.

Lemma rows_since_snoc start w w' row t :
  visits w' = (visits w ++ [row])%list -> row !! "created_at" = Some (VTime t) ->
  rows_since start w'
  = (rows_since start w ++ if (start <=? t)%Z then [row] else [])%list.
Proof.
  intros Hv Hrow. unfold rows_since. rewrite Hv, List.filter_app. f_equal.
  cbn [List.filter]. unfold row_gte. now rewrite Hrow.
Qed.

Lemma length_remove_dups_snoc_eq (l : list Value) x :
  length (remove_dups (l ++ [x]))
  = if decide (x ∈ l) then length (remove_dups l) else S (length (remove_dups l)).
Proof.
  induction l as [| a l IH].
  - cbn. destruct (decide (x ∈ [])) as [H | _]; [| reflexivity].
    now apply elem_of_nil in H.
  - cbn [app remove_dups].
    destruct (decide_rel elem_of a (l ++ [x])%list) as [Hin | Hnin],
             (decide_rel elem_of a l) as [Hin' | Hnin'],
             (decide (x ∈ a :: l)) as [Hx | Hx];
      cbn [length]; rewrite IH; destruct (decide (x ∈ l)) as [Hxl | Hxl];
      try reflexivity; exfalso;
      rewrite ?elem_of_app, ?list_elem_of_singleton, ?elem_of_cons, ?elem_of_nil in *;
      intuition congruence.
Qed.

Lemma length_remove_dups_snoc (l : list Value) x :
  (length (remove_dups l) <= length (remove_dups (l ++ [x]))
   <= S (length (remove_dups l)))%nat.
Proof. rewrite length_remove_dups_snoc_eq. destruct (decide (x ∈ l)); lia. Qed.

(** X7. Tracking composes with summarising. On a store that answers every
    call, a summary taken after one more visit has been tracked counts that
    visit exactly when it is not a bot visit and was tracked at or after the
    start of the window: [total_visits] then grows by one and
    [unique_visitors] by at most one; otherwise the summary is the same as
    before the visit. *)
Theorem tracked_visit_enters_summary (c : Client) (parse_user_agent : string -> UA.t)
    (t : Z) (visit : Stats.VisitData.t) (request : Request) (w : World) (now days : Z) :
  (forall history call, fault c history call = None) ->
  let counted :=
    negb (Stats.DeviceInfo.is_bot
            (Stats.extract_device_info parse_user_agent (user_agent_of request)))
    && (window_start now days <=? t)%Z in
  let w1 := snd (Stats.track_visit (Some c) parse_user_agent t visit request w) in
  exists r0 r1 n,
    fst (Stats.get_summary (Some c) now days w) = Ok r0
    /\ fst (Stats.get_summary (Some c) now days w1) = Ok r1
    /\ Stats.total_visits r0 = Some n
    /\ if counted
       then Stats.total_visits r1 = Some (n + 1)%Z
            /\ (Stats.unique_visitors r0 <= Stats.unique_visitors r1
                <= Stats.unique_visitors r0 + 1)%Z
       else r1 = r0.
Proof.
  intros Hno counted w1.
  destruct (get_summary_total c now days w Hno) as (w0' & E0).
  destruct (get_summary_total c now days w1 Hno) as (w1' & E1).
  rewrite E0, E1. cbn [fst].
  eexists _, _, _. split; [reflexivity | split; [reflexivity | split; [reflexivity |]]].
  pose proof (track_visit_world c parse_user_agent t visit request w Hno) as Hv.
  cbv zeta in Hv. fold w1 in Hv. subst counted.
  destruct (Stats.DeviceInfo.is_bot _); cbn [negb andb].
  - unfold rows_since. now rewrite Hv.
  - rewrite (rows_since_snoc _ w w1 _ t Hv) by reflexivity.
    destruct (window_start now days <=? t)%Z.
    + cbn [summary_over Stats.total_visits Stats.unique_visitors]. split.
      * rewrite length_app. cbn [length]. f_equal. lia.
      * unfold Stats.unique_sessions, len_set.
        rewrite !session_ids_of_projection, map_app. cbn [map].
        pose proof (length_remove_dups_snoc
                      (map (fun row : Row => default VNone (row !! "session_id"))
                         (rows_since (window_start now days) w))
                      (default VNone
                         (Stats.visit_row visit (Stats.get_client_ip request)
                            (user_agent_of request)
                            (Stats.extract_device_info parse_user_agent
                               (user_agent_of request))
                            (Stats.get_location_from_headers request) t
                          !! "session_id"))).
        lia.
    + now rewrite app_nil_r.
Qed.

Lemma tracked_visit_enters_summary_witness :
  exists r0 r1 n,
    fst (Stats.get_summary (Some accepting_client) (10 * one_day) 2
           world_with_three_visits) = Ok r0
    /\ fst (Stats.get_summary (Some accepting_client) (10 * one_day) 2
              (snd (Stats.track_visit (Some accepting_client) every_desktop
                      (9 * one_day + 7) sample_visit sample_request
                      world_with_three_visits))) = Ok r1
    /\ Stats.total_visits r0 = Some n /\ Stats.total_visits r1 = Some (n + 1)%Z.
Proof.
  destruct (tracked_visit_enters_summary accepting_client every_desktop
              (9 * one_day + 7) sample_visit sample_request world_with_three_visits
              (10 * one_day) 2 (fun _ _ => eq_refl)) as (r0 & r1 & n & E0 & E1 & Hn & H).
  exists r0, r1, n. split; [exact E0 | split; [exact E1 | split; [exact Hn |]]].
  lazymatch type of H with
  | if ?b then _ else _ =>
      assert (Hb : b = true) by (vm_compute; reflexivity); rewrite Hb in H
  end.
  apply H.
Defined.

(** ** Outcomes and totals of a summary *)

(** X8. A summary is all or nothing. Without a store client it is a 503 and
    the world is left as it was. With one, either the five queries are
    answered and the result is the complete report, or a query raises and
    the result is a 500 whose detail carries the text of that exception,
    the error being logged; no partial report is ever returned and the
    tables are never changed. *)
Theorem get_summary_all_or_nothing (supabase_cli : option Client) (now days : Z)
    (w : World) :
  let start := window_start now days in
  let (r, w') := Stats.get_summary supabase_cli now days w in
  same_tables w w'
  /\ match supabase_cli with
     | None => r = Raise (HTTPException 503 "Analytics service is not available")
               /\ w' = w
     | Some c =>
         (r = Ok (summary_over days now (rows_since start w))
          /\ calls w' = (calls w ++ summary_queries start)%list)
         \/ (exists e query history,
               In query (summary_queries start)
               /\ fault c history query = Some e
               /\ r = Raise (HTTPException 500
                               ("Failed to generate summary: " ++ exc_str e))
               /\ logs w' = (logs w ++ [summary_error_record e])%list)
     end.
Proof.
  intros start. subst start. destruct supabase_cli as [c |]; [| repeat split].
  unfold window_start, summary_queries. run_summary.
  repeat (destruct (fault c _ _) as [e |] eqn:Hfault;
          repeat (progress (cbv beta iota zeta; simpl_world));
          [ split; [repeat split |]; right;
            eexists e, _, _; split; [| split; [eassumption | split; reflexivity]];
            cbn [In]; auto 10
          | clear Hfault ]).
  split; [repeat split |]. left. split; [reflexivity |].
  now rewrite <- !app_assoc.
Qed.

(** A query that raises makes the whole summary a 500, also when the
    visits were counted by the query before it. *)
Example summary_fails_as_a_whole :
  fst (serve (Stats.get_summary (Some flaky_client) (10 * one_day) 2)
         world_with_three_visits)
  = ErrorResponse 500 "Failed to generate summary: timeout".
Proof. vm_compute. reflexivity. Qed.



Lemma dict_set_total d k :
  total_count (dict_set d k (dict_get d k 0 + 1)%Z) = (total_count d + 1)%Z.
Proof.
  unfold total_count. induction d as [| [k0 c0] d IH]; cbn; [reflexivity |].
  destruct (decide (k0 = k)); cbn; [lia |]. rewrite IH. lia.
Qed.

Lemma count_into_total keys :
  total_count (count_into [] keys) = Z.of_nat (length keys).
Proof.
  induction keys as [| k keys IH] using rev_ind; [reflexivity |].
  rewrite count_into_snoc, dict_set_total, IH, length_app. cbn. lia.
Qed.

Lemma total_count_perm l l' : Permutation l l' -> total_count l = total_count l'.
Proof.
  unfold total_count. induction 1; cbn; lia.
Qed.

Lemma total_count_firstn n l :
  (forall e, In e l -> (0 <= snd e)%Z) ->
  (0 <= total_count (firstn n l) <= total_count l)%Z.
Proof.
  unfold total_count. revert n. induction l as [| e l IH]; intros n H.
  - destruct n; cbn; lia.
  - destruct n as [| n]; cbn.
    + assert (0 <= snd e)%Z by (apply H; now left).
      specialize (IH 0%nat (fun x Hx => H x (or_intror Hx))). cbn in IH. lia.
    + assert (0 <= snd e)%Z by (apply H; now left).
      specialize (IH n (fun x Hx => H x (or_intror Hx))). lia.
Qed.

Lemma occurrences_pos k keys : In k keys -> (1 <= occurrences k keys)%Z.
Proof.
  intros H. unfold occurrences.
  apply (count_occ_In Value_eq_dec) in H. lia.
Qed.

Lemma top10_total keys :
  (0 <= total_count (Stats.top10 (count_into [] keys)) <= Z.of_nat (length keys))%Z.
Proof.
  rewrite <- count_into_total.
  rewrite <- (total_count_perm _ _ (sorted_by_count_reverse_perm (count_into [] keys))).
  apply total_count_firstn. intros [k c] He.
  apply (Permutation_in _ (sorted_by_count_reverse_perm _)) in He.
  apply count_into_entry in He as [Hk ->]. cbn.
  pose proof (occurrences_pos k keys Hk). lia.
Qed.

Lemma device_keys_of_projection (rows : list Row) :
  map Stats.device_key (map (project "device_type") rows)
  = map (column_value "device_type") rows.
Proof.
  rewrite map_map. apply map_ext. intros row.
  unfold Stats.device_key, column_value. now rewrite project_column by discriminate.
Qed.

(** X9. In every summary produced the device counters add up to
    [total_visits]: each visit that passes the filter is counted under
    exactly one device key, the keys are distinct and each counter is the
    (positive) number of visits with that device type. The visits listed in
    [top_pages], and those in [top_referrers], add up to at most
    [total_visits]. *)
Theorem devices_add_up_to_total_visits (supabase_cli : option Client) (now days : Z)
    (w : World) (r : Stats.Summary) (w' : World) :
  Stats.get_summary supabase_cli now days w = (Ok r, w') ->
  let rows := rows_since (window_start now days) w in
  exists n,
    Stats.total_visits r = Some n
    /\ total_count (Stats.devices r) = n
    /\ List.NoDup (map fst (Stats.devices r))
    /\ (forall k c, In (k, c) (Stats.devices r) ->
          (1 <= c)%Z /\ c = occurrences k (map (column_value "device_type") rows))
    /\ (0 <= fold_right Z.add 0 (map Stats.PageEntry.visits (Stats.top_pages r)) <= n)%Z
    /\ (0 <= fold_right Z.add 0 (map Stats.ReferrerEntry.visits (Stats.top_referrers r))
        <= n)%Z.
Proof.
  intros H rows. destruct supabase_cli as [c |]; [| discriminate].
  apply get_summary_returns in H. subst r. fold rows.
  exists (Z.of_nat (length rows)).
  cbn [summary_over Stats.total_visits Stats.devices Stats.top_pages Stats.top_referrers].
  unfold Stats.device_counts, Stats.page_counts, Stats.referrer_counts.
  split; [reflexivity |].
  split; [now rewrite count_into_total, !length_map |].
  split; [apply count_into_keys_nodup |].
  split.
  { intros k c0 Hin. rewrite device_keys_of_projection in Hin.
    apply count_into_entry in Hin as [Hk ->].
    split; [now apply occurrences_pos | reflexivity]. }
  split.
  - rewrite map_map.
    rewrite (map_ext _ snd) by (now intros [url n]).
    pose proof (top10_total (map Stats.page_key (map (project "page_url") rows))) as Ht.
    unfold total_count in Ht. now rewrite !length_map in Ht.
  - rewrite map_map.
    rewrite (map_ext _ snd) by (now intros [ref n]).
    pose proof (top10_total (map Stats.referrer_key (map (project "referrer") rows)))
      as Ht.
    unfold total_count in Ht. now rewrite !length_map in Ht.
Qed.

Lemma devices_add_up_to_total_visits_witness :
  exists r,
    fst (Stats.get_summary (Some accepting_client) (10 * one_day) 10
           world_with_three_visits) = Ok r
    /\ total_count (Stats.devices r) = 3%Z.
Proof.
  destruct (get_summary_total accepting_client (10 * one_day) 10
              world_with_three_visits (fun _ _ => eq_refl)) as (w' & E).
  destruct (devices_add_up_to_total_visits _ _ _ _ _ _ E) as (n & Hn & Hd & _).
  eexists. rewrite E. split; [reflexivity |].
  rewrite Hd. vm_compute in Hn. now injection Hn as <-.
Defined.

Lemma count_into_nonempty keys : keys <> [] -> count_into [] keys <> [].
Proof.
  destruct keys as [| k keys]; [congruence |]. intros _ E.
  pose proof (count_into_has_key (k :: keys) k (or_introl eq_refl)) as H.
  now rewrite E in H.
Qed.

Lemma top10_nonempty counts : counts <> [] -> Stats.top10 counts <> [].
Proof.
  intros H E. unfold Stats.top10 in E.
  pose proof (sorted_by_count_reverse_perm counts) as Hp.
  destruct (sorted_by_count_reverse counts) as [| x l]; [| discriminate].
  apply Permutation_nil in Hp. congruence.
Qed.

(** X10. The summary of an empty window is the empty report: when no visit
    passes the filter, the totals are zero and [devices], [top_pages] and
    [top_referrers] are empty lists. As soon as one visit passes the filter,
    [unique_visitors] is at least one and none of the three is empty. *)
Theorem summary_of_empty_window (supabase_cli : option Client) (now days : Z)
    (w : World) (r : Stats.Summary) (w' : World) :
  Stats.get_summary supabase_cli now days w = (Ok r, w') ->
  let rows := rows_since (window_start now days) w in
  (rows = [] <-> Stats.total_visits r = Some 0%Z)
  /\ (rows = [] ->
      Stats.unique_visitors r = 0%Z /\ Stats.devices r = []
      /\ Stats.top_pages r = [] /\ Stats.top_referrers r = [])
  /\ (rows <> [] ->
      (1 <= Stats.unique_visitors r)%Z /\ Stats.devices r <> []
      /\ Stats.top_pages r <> [] /\ Stats.top_referrers r <> []).
Proof.
  intros H rows. destruct supabase_cli as [c |]; [| discriminate].
  apply get_summary_returns in H. subst r. fold rows.
  cbn [summary_over Stats.total_visits Stats.unique_visitors Stats.devices
       Stats.top_pages Stats.top_referrers].
  split; [| split].
  - split; [now intros -> |]. intros [= E]. destruct rows; [reflexivity | discriminate].
  - intros ->. repeat split.
  - intros Hne. destruct rows as [| row rows']; [congruence |].
    unfold Stats.device_counts, Stats.page_counts, Stats.referrer_counts.
    split; [| split; [| split]].
    + unfold Stats.unique_sessions, len_set. rewrite session_ids_of_projection.
      cbn [map].
      destruct (remove_dups _) as [| x l] eqn:E; [| cbn; lia].
      exfalso.
      assert (Hin : default VNone (row !! "session_id")
                    ∈ remove_dups (default VNone (row !! "session_id")
                                   :: map (fun row0 : Row =>
                                             default VNone (row0 !! "session_id")) rows'))
        by (apply elem_of_remove_dups; left).
      rewrite E in Hin. now apply elem_of_nil in Hin.
    + now apply count_into_nonempty.
    + intros E. apply map_eq_nil in E. revert E.
      now apply top10_nonempty, count_into_nonempty.
    + intros E. apply map_eq_nil in E. revert E.
      now apply top10_nonempty, count_into_nonempty.
Qed.

Lemma summary_of_empty_window_witness :
  exists r,
    fst (Stats.get_summary (Some accepting_client) (10 * one_day) 1 empty_world) = Ok r
    /\ Stats.top_pages r = [] /\ Stats.devices r = [].
Proof.
  destruct (get_summary_total accepting_client (10 * one_day) 1 empty_world
              (fun _ _ => eq_refl)) as (w' & E).
  destruct (summary_of_empty_window _ _ _ _ _ _ E) as (_ & Hempty & _).
  eexists. rewrite E. split; [reflexivity |].
  destruct (Hempty eq_refl) as (_ & Hd & Hp & _). split; assumption.
Defined.

(** ** What the contact intake stores *)

Lemma contact_row_columns contact ip now :
  let row := Contact.contact_row contact ip now in
  row !! "subject"
  = Some (VStr (match Contact.ContactMessage.subject contact with
                | Some s => if str_truthy s then s else "No subject"
                | None => "No subject"
                end))
  /\ row !! "name" = Some (VStr (Contact.ContactMessage.name contact))
  /\ row !! "message" = Some (VStr (Contact.ContactMessage.message contact))
  /\ row !! "created_at" = Some (VTime now).
Proof. repeat split; reflexivity. Qed.

(** X12. The subject of a stored contact message is never empty: a missing
    subject and an empty subject are both stored as "No subject", any other
    subject is stored as it is. For a message that satisfies the length
    constraints of its fields, the stored subject has at most 200
    characters, the stored name between 1 and 100 and the stored message
    between 10 and 5000. *)
Theorem contact_subject_never_empty (contact : Contact.ContactMessage.t)
    (ip : string) (now : Z) :
  let row := Contact.contact_row contact ip now in
  exists subject name message,
    row !! "subject" = Some (VStr subject)
    /\ row !! "name" = Some (VStr name)
    /\ row !! "message" = Some (VStr message)
    /\ subject <> ""
    /\ (Contact.ContactMessage.subject contact = None
        \/ Contact.ContactMessage.subject contact = Some "" -> subject = "No subject")
    /\ (forall s, Contact.ContactMessage.subject contact = Some s -> s <> "" ->
                  subject = s)
    /\ (ContactMessage_lengths contact = true ->
        (py_len subject <= 200)%Z /\ (1 <= py_len name <= 100)%Z
        /\ (10 <= py_len message <= 5000)%Z).
Proof.
  intros row. subst row. unfold ContactMessage_lengths.
  destruct contact as [name email subject message].
  cbn [Contact.ContactMessage.subject Contact.ContactMessage.name
       Contact.ContactMessage.message].
  exists (match subject with
          | Some s => if str_truthy s then s else "No subject"
          | None => "No subject"
          end), name, message.
  split; [reflexivity | split; [reflexivity | split; [reflexivity |]]].
  rewrite !andb_true_iff, !Z.leb_le.
  destruct subject as [[| ch s] |]; cbn [str_truthy];
    (split; [discriminate |]);
    (split; [intros Hor; destruct Hor as [H | H]; (reflexivity || discriminate H) |]);
    (split; [intros t Ht Hne; congruence |]);
    change (py_len "No subject") with 10%Z; lia.
Qed.

Lemma contact_subject_never_empty_witness :
  exists subject,
    Contact.contact_row sample_contact "203.0.113.7" 0 !! "subject" = Some (VStr subject)
    /\ (py_len subject <= 200)%Z.
Proof.
  destruct (contact_subject_never_empty sample_contact "203.0.113.7" 0)
    as (subject & name & message & Hs & _ & _ & _ & _ & _ & Hlen).
  exists subject. split; [exact Hs |]. now apply Hlen.
Defined.

(** X13. A contact submission never changes the visits or the events, and
    the message is stored exactly when the store accepts the insert,
    whatever the answer. In particular, when the store accepts the insert
    and returns a first row without [id], the answer is a 500 although the
    message has been stored; and when the insert raises, or without a store
    client, nothing is stored. *)
Theorem contact_stored_iff_accepted (supabase_cli : option Client) (now : Z)
    (contact : Contact.ContactMessage.t) (request : Request) (w : World) :
  let row := Contact.contact_row contact (Contact.client_ip_of request) now in
  let (r, w') := Contact.submit_contact supabase_cli now contact request w in
  visits w' = visits w /\ events w' = events w
  /\ match supabase_cli with
     | None => contact_messages w' = contact_messages w
     | Some c =>
         match fault c (calls w) (CInsert "contact_messages" row) with
         | Some _ => contact_messages w' = contact_messages w
         | None =>
             contact_messages w' = (contact_messages w ++ [row])%list
             /\ forall first rest,
                  returning c (calls w) "contact_messages" row = first :: rest ->
                  first !! "id" = None ->
                  r = Raise (HTTPException 500 "Failed to submit message: 'id'")
         end
     end.
Proof.
  intros row. subst row. destruct supabase_cli as [c |]; run_contact; [| repeat split].
  destruct (fault c _ _); [repeat split |].
  destruct (returning c _ _ _) as [| first rest].
  - split; [reflexivity | split; [reflexivity | split; [reflexivity |]]].
    discriminate.
  - destruct (first !! "id") eqn:E;
      (split; [reflexivity | split; [reflexivity | split; [reflexivity |]]]);
      intros f rs [= <- <-] Hid; [congruence | reflexivity].
Qed.

Lemma contact_stored_iff_accepted_witness :
  let (r, w') := Contact.submit_contact (Some anonymous_client) 0 sample_contact
                   sample_request empty_world in
  status (respond r) = 500%Z /\ length (contact_messages w') = 1%nat.
Proof.
  pose proof (contact_stored_iff_accepted (Some anonymous_client) 0 sample_contact
                sample_request empty_world) as H.
  destruct (Contact.submit_contact _ _ _ _ _) as [r w'].
  destruct H as (_ & _ & Hstored & Hr).
  split.
  - rewrite (Hr _ _ eq_refl eq_refl). reflexivity.
  - rewrite Hstored. reflexivity.
Defined.

(** ** Start-up and health *)

Lemma str_truthy_false s : str_truthy s = false <-> s = "".
Proof. destruct s; cbn; split; congruence. Qed.

(** X14. The start-up of a router never fails and never calls the store:
    it yields a store client or none, logs one record and leaves the tables
    alone. There is no client exactly when SUPABASE_URL or SUPABASE_KEY is
    unset or empty, or when [create_client] raises; otherwise the client is
    the one [create_client] returned. Without a client the health checks
    say "degraded" and the four operations answer 503. *)
Theorem supabase_cli_startup (service : string) (env : gmap string string)
    (create_client : string -> string -> Result Client) (w : World) :
  let url := getenv env "SUPABASE_URL" "" in
  let key := getenv env "SUPABASE_KEY" "" in
  exists cli w',
    supabase_cli service env create_client w = (Ok cli, w')
    /\ same_tables w w' /\ no_store_call w w'
    /\ (exists record, logs w' = (logs w ++ [record])%list)
    /\ (cli = None <-> url = "" \/ key = "" \/ exists e, create_client url key = Raise e)
    /\ (forall c, cli = Some c -> create_client url key = Ok c)
    /\ (cli = None ->
        Health.status (stats_health cli) = "degraded"
        /\ Health.status (contact_health cli) = "degraded"
        /\ forall parse_user_agent now visit event contact days request w0,
             status (fst (serve (Stats.track_visit cli parse_user_agent now visit request)
                            w0)) = 503%Z
             /\ status (fst (serve (Stats.track_event cli now event request) w0)) = 503%Z
             /\ status (fst (serve (Stats.get_summary cli now days) w0)) = 503%Z
             /\ status (fst (serve (Contact.submit_contact cli now contact request) w0))
                = 503%Z).
Proof.
  intros url key. unfold supabase_cli. fold url key.
  assert (Hdown : forall cli : option Client, cli = None ->
            Health.status (stats_health cli) = "degraded"
            /\ Health.status (contact_health cli) = "degraded"
            /\ forall parse_user_agent now visit event contact days request w0,
                 status (fst (serve (Stats.track_visit cli parse_user_agent now visit
                                       request) w0)) = 503%Z
                 /\ status (fst (serve (Stats.track_event cli now event request) w0))
                    = 503%Z
                 /\ status (fst (serve (Stats.get_summary cli now days) w0)) = 503%Z
                 /\ status (fst (serve (Contact.submit_contact cli now contact request)
                                   w0)) = 503%Z)
    by (intros cli ->; repeat split).
  destruct (str_truthy url) eqn:Hu; [destruct (str_truthy key) eqn:Hk |]; cbn [negb orb].
  - unfold try_except, bind, log, ret.
    assert (Hurl : url <> "") by (intros E; apply str_truthy_false in E; congruence).
    assert (Hkey : key <> "") by (intros E; apply str_truthy_false in E; congruence).
    destruct (create_client url key) as [c | e] eqn:Hc.
    + exists (Some c). eexists. split; [reflexivity |].
      split; [repeat split | split; [reflexivity | split; [eexists; reflexivity |]]].
      split; [| split; [now intros c' [= <-] | discriminate]].
      split; [discriminate |]. intros [? | [? | [e He]]]; congruence.
    + exists None. eexists. split; [reflexivity |].
      split; [repeat split | split; [reflexivity | split; [eexists; reflexivity |]]].
      split; [| split; [discriminate | apply Hdown]].
      split; [| reflexivity]. intros _. right. right. now exists e.
  - apply str_truthy_false in Hk.
    exists None. eexists. split; [reflexivity |].
    split; [repeat split | split; [reflexivity | split; [eexists; reflexivity |]]].
    split; [| split; [discriminate | apply Hdown]].
    split; [| reflexivity]. intros _. now right; left.
  - apply str_truthy_false in Hu.
    exists None. eexists. split; [reflexivity |].
    split; [repeat split | split; [reflexivity | split; [eexists; reflexivity |]]].
    split; [| split; [discriminate | apply Hdown]].
    split; [| reflexivity]. intros _. now left.
Qed.

Lemma supabase_cli_startup_witness :
  fst (supabase_cli "stats" {[ "SUPABASE_URL" := "https://db.example" ]}
         working_create_client empty_world) = Ok None
  /\ fst (supabase_cli "stats"
            {[ "SUPABASE_URL" := "https://db.example"; "SUPABASE_KEY" := "k" ]}
            broken_create_client empty_world) = Ok None.
Proof.
  split.
  - destruct (supabase_cli_startup "stats" {[ "SUPABASE_URL" := "https://db.example" ]}
                working_create_client empty_world)
      as (cli & w' & E & _ & _ & _ & Hnone & _).
    rewrite E. cbn [fst]. f_equal. apply Hnone. right. left. reflexivity.
  - destruct (supabase_cli_startup "stats"
                {[ "SUPABASE_URL" := "https://db.example"; "SUPABASE_KEY" := "k" ]}
                broken_create_client empty_world)
      as (cli & w' & E & _ & _ & _ & Hnone & _).
    rewrite E. cbn [fst]. f_equal. apply Hnone. right. right.
    eexists. reflexivity.
Defined.

(** ** The allowed origins *)

Lemma split_comma_nonempty s : split_comma s <> [].
Proof.
  destruct s as [| c s]; cbn; [discriminate |].
  destruct (Ascii.eqb c ","%char); [discriminate |].
  destruct (split_comma s); discriminate.
Qed.

Lemma join_comma_cons piece pieces :
  pieces <> [] -> join_comma (piece :: pieces) = piece ++ "," ++ join_comma pieces.
Proof. destruct pieces; [congruence | reflexivity]. Qed.

Lemma join_split_comma s : join_comma (split_comma s) = s.
Proof.
  induction s as [| c s IH]; [reflexivity |].
  pose proof (split_comma_nonempty s) as Hne.
  cbn [split_comma].
  destruct (Ascii.eqb_spec c ","%char) as [-> | _].
  - rewrite join_comma_cons by assumption. now rewrite IH.
  - destruct (split_comma s) as [| piece pieces]; [congruence |].
    destruct pieces as [| p ps].
    + cbn in *. now rewrite IH.
    + rewrite join_comma_cons by discriminate.
      rewrite join_comma_cons in IH by discriminate.
      rewrite str_app_cons. now rewrite IH.
Qed.

Lemma split_comma_pieces s : Forall (fun piece => has_comma piece = false) (split_comma s).
Proof.
  induction s as [| c s IH]; [repeat constructor |].
  cbn [split_comma].
  destruct (Ascii.eqb_spec c ","%char) as [-> | Hne]; [now constructor |].
  destruct (split_comma s) as [| piece pieces]; [repeat constructor |].
  - unfold has_comma. cbn [list_ascii_of_string existsb].
    destruct (Ascii.eqb_spec ","%char c); [congruence | reflexivity].
  - inversion IH as [| ? ? Hp Hps]; subst. constructor; [| assumption].
    unfold has_comma in *. cbn [list_ascii_of_string existsb]. rewrite Hp.
    destruct (Ascii.eqb_spec ","%char c); [congruence | reflexivity].
Qed.

Lemma split_comma_length s : length (split_comma s) = S (count_commas s).
Proof.
  induction s as [| c s IH]; [reflexivity |].
  cbn [split_comma count_commas].
  destruct (Ascii.eqb c ","%char); cbn [length]; [now rewrite IH |].
  destruct (split_comma s); cbn in *; lia.
Qed.

Lemma split_comma_head s : hd "" (split_comma s) = split_comma_first s.
Proof.
  induction s as [| c s IH]; [reflexivity |].
  cbn [split_comma split_comma_first].
  destruct (Ascii.eqb c ","%char); [reflexivity |].
  destruct (split_comma s); cbn in *; now rewrite <- IH.
Qed.

(** X15. The allowed origins are the comma-separated pieces of the
    variable, taken as they are: there is always at least one origin, one
    more than there are commas; no origin contains a comma; joining them
    with commas gives the variable back, so that no character (and no space
    around an origin) is dropped; the first origin is the text before the
    first comma. When the variable is unset the only origin is
    "http://localhost:4321". *)
Theorem allowed_origins_round_trip (env : gmap string string) :
  let value := getenv env "ALLOWED_ORIGINS" "http://localhost:4321" in
  let origins := ALLOWED_ORIGINS env in
  join_comma origins = value
  /\ length origins = S (count_commas value)
  /\ Forall (fun origin => has_comma origin = false) origins
  /\ hd "" origins = split_comma_first value
  /\ (env !! "ALLOWED_ORIGINS" = None -> origins = ["http://localhost:4321"]).
Proof.
  intros value origins. subst value origins. unfold ALLOWED_ORIGINS.
  split; [apply join_split_comma |].
  split; [apply split_comma_length |].
  split; [apply split_comma_pieces |].
  split; [apply split_comma_head |].
  intros H. unfold getenv. rewrite H. reflexivity.
Qed.

Lemma allowed_origins_round_trip_witness :
  ALLOWED_ORIGINS ∅ = ["http://localhost:4321"].
Proof.
  destruct (allowed_origins_round_trip ∅) as (_ & _ & _ & _ & H).
  apply H. reflexivity.
Defined.

(** Spaces after the commas stay in the origins. *)
Example allowed_origins_keep_spaces :
  ALLOWED_ORIGINS {[ "ALLOWED_ORIGINS" := "https://a.example, https://b.example" ]}
  = ["https://a.example"; " https://b.example"].
Proof. vm_compute. reflexivity. Qed.

(** ** Periods *)

Lemma len_set_mono (l1 l2 : list Value) :
  (forall x, In x l1 -> In x l2) -> (len_set l1 <= len_set l2)%Z.
Proof.
  intros H. unfold len_set. apply inj_le, submseteq_length, NoDup_submseteq.
  - apply NoDup_remove_dups.
  - intros x. rewrite !elem_of_remove_dups, !list_elem_of_In. apply H.
Qed.

Lemma rows_since_later start1 start2 w :
  (start2 <= start1)%Z ->
  rows_since start1 w
  = List.filter (row_gte "created_at" start1) (rows_since start2 w).
Proof.
  intros Hle. unfold rows_since. symmetry. apply filter_of_filter.
  intros row _. unfold row_gte.
  destruct (row !! "created_at") as [[| | | t] |]; try discriminate.
  rewrite !Z.leb_le. lia.
Qed.

(** X16. A longer period never counts less. On the same store and at the
    same time, with a store that answers, the summary over [days2] days has
    at least the [total_visits] and at least the [unique_visitors] of the
    summary over [days1 <= days2] days. *)
Theorem longer_period_counts_no_fewer (c : Client) (now days1 days2 : Z) (w : World) :
  (forall history call, fault c history call = None) ->
  (days1 <= days2)%Z ->
  exists r1 r2 n1 n2,
    fst (Stats.get_summary (Some c) now days1 w) = Ok r1
    /\ fst (Stats.get_summary (Some c) now days2 w) = Ok r2
    /\ Stats.total_visits r1 = Some n1 /\ Stats.total_visits r2 = Some n2
    /\ (n1 <= n2)%Z
    /\ (Stats.unique_visitors r1 <= Stats.unique_visitors r2)%Z.
Proof.
  intros Hno Hle.
  destruct (get_summary_total c now days1 w Hno) as (w1 & E1).
  destruct (get_summary_total c now days2 w Hno) as (w2 & E2).
  rewrite E1, E2. cbn [fst].
  eexists _, _, _, _.
  split; [reflexivity | split; [reflexivity | split; [reflexivity | split; [reflexivity |]]]].
  assert (Hrows : rows_since (window_start now days1) w
                  = List.filter (row_gte "created_at" (window_start now days1))
                      (rows_since (window_start now days2) w)).
  { apply rows_since_later. unfold window_start, Stats.timedelta_days. lia. }
  cbn [summary_over Stats.unique_visitors]. split.
  - rewrite Hrows. apply inj_le, List.filter_length_le.
  - unfold Stats.unique_sessions. rewrite !session_ids_of_projection.
    apply len_set_mono. intros x Hx.
    apply in_map_iff in Hx as (row & <- & Hrow).
    apply in_map_iff. exists row. split; [reflexivity |].
    rewrite Hrows in Hrow. now apply List.filter_In in Hrow as [Hrow _].
Qed.

Lemma longer_period_counts_no_fewer_witness :
  exists r1 r2 n1 n2,
    fst (Stats.get_summary (Some accepting_client) (10 * one_day) 2
           world_with_three_visits) = Ok r1
    /\ fst (Stats.get_summary (Some accepting_client) (10 * one_day) 10
              world_with_three_visits) = Ok r2
    /\ Stats.total_visits r1 = Some n1 /\ Stats.total_visits r2 = Some n2
    /\ (n1 <= n2)%Z.
Proof.
  destruct (longer_period_counts_no_fewer accepting_client (10 * one_day) 2 10
              world_with_three_visits (fun _ _ => eq_refl))
    as (r1 & r2 & n1 & n2 & E1 & E2 & H1 & H2 & Hle & _); [lia |].
  exists r1, r2, n1, n2. repeat split; assumption.
Defined.

(** ** The log of the tracker *)

Lemma str_slice_to_prefix n s :
  (exists rest, s = str_slice_to n s ++ rest) /\ (py_len (str_slice_to n s) <= Z.of_nat n)%Z.
Proof.
  revert n. induction s as [| c s IH]; intros n.
  - split; [now exists "" | cbn; lia].
  - cbn [str_slice_to]. destruct (is_continuation c) eqn:Hc.
    + destruct (IH n) as [[rest Hrest] Hlen]. split.
      * exists rest. rewrite str_app_cons. now rewrite <- Hrest.
      * cbn [py_len]. rewrite Hc. lia.
    + destruct n as [| n].
      * split; [now exists (String c s) | cbn; lia].
      * destruct (IH n) as [[rest Hrest] Hlen]. split.
        -- exists rest. rewrite str_app_cons. now rewrite <- Hrest.
        -- cbn [py_len]. rewrite Hc. lia.
Qed.

(** X17. The tracker leaves exactly one log record per request, at level
    "error" exactly when the request failed (a 503, or an insert that
    raised) and at level "info" when the visit or event was tracked or the
    bot visit skipped. The record of a tracked visit carries a prefix of at
    most 8 characters of the session id. A summary without a store client,
    in contrast, is a 503 that leaves no log record. *)
Theorem tracker_logs_once (supabase_cli : option Client)
    (parse_user_agent : string -> UA.t) (now days : Z) (visit : Stats.VisitData.t)
    (event : Stats.EventData.t) (request : Request) (w : World) :
  (let (r, w') := Stats.track_visit supabase_cli parse_user_agent now visit request w in
   exists record,
     logs w' = (logs w ++ [record])%list
     /\ (level record = "error" \/ level record = "info")
     /\ (level record = "error" <->
         match r with Ok body => Stats.error body <> None | Raise _ => True end)
     /\ (forall body, r = Ok body -> Stats.tracked body = true ->
         exists short rest,
           In ("session", LStr short) (fields record)
           /\ Stats.VisitData.session_id visit = short ++ rest
           /\ (py_len short <= 8)%Z))
  /\ (let (r, w') := Stats.track_event supabase_cli now event request w in
      exists record,
        logs w' = (logs w ++ [record])%list
        /\ (level record = "error" \/ level record = "info")
        /\ (level record = "error" <->
            match r with Ok body => Stats.tracked body = false | Raise _ => True end))
  /\ logs (snd (Stats.get_summary None now days w)) = logs w.
Proof.
  split; [| split; [| reflexivity]].
  - destruct (str_slice_to_prefix 8 (Stats.VisitData.session_id visit))
      as [[rest Hrest] Hlen].
    unfold Stats.track_visit, try_except, bind, log, ret, raise, insert_execute.
    destruct supabase_cli as [c |].
    + destruct (Stats.DeviceInfo.is_bot _).
      * eexists. split; [reflexivity |]. split; [now right |].
        split; [split; [discriminate | intros H; now contradiction H] |].
        intros body [= <-] [=].
      * destruct (fault c _ _) as [e |].
        -- eexists. split; [reflexivity |]. split; [now left |].
           split; [split; [discriminate | reflexivity] |].
           intros body [= <-] [=].
        -- eexists. split; [reflexivity |]. split; [now right |].
           split; [split; [discriminate | intros H; now contradiction H] |].
           intros body [= <-] _. exists (str_slice_to 8 (Stats.VisitData.session_id visit)), rest.
           split; [cbn; tauto | split; assumption].
    + eexists. split; [reflexivity |]. split; [now left |].
      split; [tauto |]. intros body [=].
  - unfold Stats.track_event, try_except, bind, log, ret, raise, insert_event_execute.
    destruct supabase_cli as [c |].
    + destruct (fault c _ _) as [e |].
      * eexists. split; [reflexivity |]. split; [now left |]. tauto.
      * eexists. split; [reflexivity |]. split; [now right |].
        split; discriminate.
    + eexists. split; [reflexivity |]. split; [now left |]. tauto.
Qed.
